(** * The fiat rate service of avgx-backend: cache, reconciliation, average

    A shallow embedding of [FiatApiService] (services/fiat-api.ts) and the
    properties of its rate cache, of the three-tier reconciliation
    (fetched rate, baseline rate, static default) and of the weighted
    average.

    Modelling conventions.
    - A JavaScript [number] is an IEEE-754 binary64 value: Rocq's primitive
      [float].  [===] on numbers is [PrimFloat.eqb] (NaN differs from
      itself, +0 equals -0).
    - Objects used as dictionaries are [gmap string _] for their own
      properties.  What a read yields for a key the object does not own (a
      member inherited through the prototype chain, such as [toString]) is
      a parameter of the development, [inheritedMember]: the theorems hold
      whatever the built-ins of the engine are.  So is the conversion to a
      number of a value that is neither a number, a boolean nor [null].
    - The conversion of a rate to a number (in the division of the average)
      and to a string (in the log messages) is taken to complete: in
      JavaScript it throws only when baseline.json holds an object with a
      property of its own named [toString].
    - An [async] method is a function from the heap (the service object
      and the outside world) to a completion and the heap afterwards.
      [console] output is not part of the model. *)

From Stdlib Require Import Floats ZArith.
From stdpp Require Import base option list strings pretty gmap.

Local Open Scope Z_scope.

(** JavaScript source literals such as [0.85] denote the nearest binary64
    value, in Rocq as in JavaScript. *)
Set Warnings "-inexact-float,-register-all".

Abbreviation number := float.

(** ** JavaScript values as far as the service inspects them *)

(** What [JSON.parse] can produce; an array is an object whose keys are its
    indices and [length]. *)
Inductive JsValue :=
  | JsNull
  | JsBoolean (b : bool)
  | JsNumber (n : number)
  | JsString (s : string)
  | JsObject (props : gmap string JsValue).

(** Truthiness of a number: every number but +0, -0 and NaN. *)
Definition truthy_number (n : number) : bool :=
  negb (PrimFloat.eqb n 0%float) && negb (PrimFloat.is_nan n).

(** Truthiness of the result of a property read ([None] is [undefined]). *)
Definition truthy (v : option JsValue) : bool :=
  match v with
  | None => false
  | Some JsNull => false
  | Some (JsBoolean b) => b
  | Some (JsNumber n) => truthy_number n
  | Some (JsString s) => negb (String.eqb s "")
  | Some (JsObject _) => true
  end.

Definition typeof (v : option JsValue) : string :=
  match v with
  | None => "undefined"
  | Some JsNull => "object"
  | Some (JsBoolean _) => "boolean"
  | Some (JsNumber _) => "number"
  | Some (JsString _) => "string"
  | Some (JsObject _) => "object"
  end.

(** The own properties of a value; a primitive has none. *)
Definition props_of (v : option JsValue) : gmap string JsValue :=
  match v with
  | Some (JsObject props) => props
  | _ => ∅
  end.

(** The own property [key] of [v].  This is [v[key]] and [v.key] for the
    keys no prototype provides ([rates], [fiat_rates]) and wherever an
    inherited member cannot pass the test made on the result (a built-in
    function or prototype is no number). *)
Definition getProp (v : option JsValue) (key : string) : option JsValue :=
  props_of v !! key.

(** ** Data model *)

Record FiatConfig := mkFiatConfig {
  code : string;
  name : string;
  weight : number;
}.

(** What a property read can yield at run time: a value of the JSON
    document read, or a built-in reached through the prototype chain (a
    function such as [toString], or a prototype object). *)
Inductive JsAny :=
  | JsJson (v : JsValue)
  | JsNative (name : string).

(** A number as a run-time value. *)
Definition num (n : number) : JsAny := JsJson (JsNumber n).
Coercion num : float >-> JsAny.

(** Truthiness of a run-time value: functions and objects are truthy. *)
Definition truthyAny (v : JsAny) : bool :=
  match v with
  | JsJson j => truthy (Some j)
  | JsNative _ => true
  end.

(** The built-ins of the JavaScript engine the service relies on. *)
Record Engine := mkEngine {
  (* what [v[key]] yields when [v] does not own [key] *)
  inheritedMember : JsValue → string → option JsAny;
  (* [ToNumber] of a string, an object or a built-in *)
  toNumberOther : JsAny → number;
}.

(** [interface FiatData extends FiatConfig { rate: number }]: the object
    [{...config, rate}].  The declared type of [rate] is not checked at run
    time: the rate taken from baseline.json, which is read as [any], is
    whatever value the document holds. *)
Record FiatData := mkFiatData {
  config : FiatConfig;
  rate : JsAny;
}.

Inductive Error := mkError (message : string).

Inductive Completion (A : Type) :=
  | Normal (a : A)
  | Throw (e : Error).
Arguments Normal {A} a.
Arguments Throw {A} e.

(** The HTTP response as the service reads it: [response.ok],
    [response.status], [response.statusText] and the outcome of
    [await response.json()]. *)
Record Response := mkResponse {
  ok : bool;
  status : Z;
  statusText : string;
  json : Completion JsValue;
}.

Inductive FetchOutcome :=
  | FetchRejects (reason : Error)
  | FetchResolves (response : Response).

(** One request to the exchange-rate API: the time it takes and how it
    ends. *)
Record Exchange := mkExchange {
  elapsed : Z;
  outcome : FetchOutcome;
}.

(** The world outside the service object. *)
Record World := mkWorld {
  clock : Z;                               (* Date.now(), in ms *)
  fiats_json : option (list FiatConfig);   (* readJson('fiats.json') *)
  baseline_json : option JsValue;          (* readJson('baseline.json') *)
  api : nat → Exchange;                    (* the k-th request *)
  requests : list string;                  (* URLs requested, latest first *)
}.

(** The private fields of [FiatApiService]. *)
Record FiatApiService := mkFiatApiService {
  cachedRates : list FiatData;
  fiatConfig : list FiatConfig;
  lastFetch : option Z;
}.

Definition CACHE_DURATION : Z := 60000.

Record Heap := mkHeap {
  this : FiatApiService;
  world : World;
}.

(** ** Asynchronous computations: state and exceptions *)

Definition Async (A : Type) : Type := Heap → Completion A * Heap.

#[global] Instance Async_ret : MRet Async := λ A a h, (Normal a, h).

#[global] Instance Async_bind : MBind Async := λ A B f m h,
  match m h with
  | (Normal a, h') => f a h'
  | (Throw e, h') => (Throw e, h')
  end.

Definition throw {A} (e : Error) : Async A := λ h, (Throw e, h).

(** [try { body } catch (error) { handler }] *)
Definition tryCatch {A} (body : Async A) (handler : Error → Async A) : Async A :=
  λ h, match body h with
       | (Normal a, h') => (Normal a, h')
       | (Throw e, h') => handler e h'
       end.

Definition getThis : Async FiatApiService := λ h, (Normal (this h), h).

Definition set_cachedRates (rates : list FiatData) : Async unit := λ h,
  (Normal (), mkHeap (mkFiatApiService rates (fiatConfig (this h)) (lastFetch (this h)))
                     (world h)).

Definition set_fiatConfig (cfg : list FiatConfig) : Async unit := λ h,
  (Normal (), mkHeap (mkFiatApiService (cachedRates (this h)) cfg (lastFetch (this h)))
                     (world h)).

Definition set_lastFetch (d : option Z) : Async unit := λ h,
  (Normal (), mkHeap (mkFiatApiService (cachedRates (this h)) (fiatConfig (this h)) d)
                     (world h)).

(** [Date.now()] and the time value of [new Date()]. *)
Definition Date_now : Async Z := λ h, (Normal (clock (world h)), h).

(** Modelled from the spec: utils/file-manager is not part of the sources.
    Section 7 has a file that fails to load "treated as an empty list, not
    fatal", and the service guards every read ([|| []], [baseline?.]):
    [readJson] resolves to [null] ([None]) when the file cannot be read and
    never rejects. *)
Definition readJson_fiats : Async (option (list FiatConfig)) :=
  λ h, (Normal (fiats_json (world h)), h).

(** Modelled from the spec: [FileManager.readJson('baseline.json')], under
    the same reading of section 7 as [readJson_fiats]. *)
Definition readJson_baseline : Async (option JsValue) :=
  λ h, (Normal (baseline_json (world h)), h).

(** [await fetch(url, ...)]: the next exchange of the world happens, the
    URL is recorded and the clock advances by the time the request took. *)
Definition fetch (url : string) : Async Response := λ h,
  let w := world h in
  let x := api w (length (requests w)) in
  let h' := mkHeap (this h)
              (mkWorld (clock w + elapsed x) (fiats_json w) (baseline_json w)
                       (api w) (url :: requests w)) in
  match outcome x with
  | FetchRejects reason => (Throw reason, h')
  | FetchResolves response => (Normal response, h')
  end.

(** [await response.json()] *)
Definition Response_json (response : Response) : Async JsValue :=
  λ h, (json response, h).

(** Modelled from the spec: the "delay between attempts" of section 4.4,
    a timer that moves the clock on. *)
Definition sleep (ms : Z) : Async unit := λ h,
  let w := world h in
  (Normal (), mkHeap (this h)
                (mkWorld (clock w + ms) (fiats_json w) (baseline_json w)
                         (api w) (requests w))).

(** ** An engine for the scenarios *)

(** The names every plain object inherits from [Object.prototype]. *)
Definition objectPrototypeNames : list string :=
  [ "constructor"; "__defineGetter__"; "__defineSetter__"; "hasOwnProperty";
    "__lookupGetter__"; "__lookupSetter__"; "isPrototypeOf";
    "propertyIsEnumerable"; "toString"; "valueOf"; "__proto__";
    "toLocaleString" ].

(** The engine the scenarios are evaluated with.  Their documents hold
    plain objects and numbers only: a plain object inherits the members of
    [Object.prototype], and a plain object or a built-in function converts
    to NaN. *)
Definition plainObjectEngine : Engine :=
  mkEngine
    (λ v key,
       match v with
       | JsObject _ =>
           if existsb (String.eqb key) objectPrototypeNames
           then Some (JsNative key) else None
       | _ => None
       end)
    (λ _, nan).

(** ** The service *)

Section Engine.

Variable engine : Engine.

(** [v[key]] for any key: the own property, else the inherited member. *)
Definition getMember (v : JsValue) (key : string) : option JsAny :=
  match props_of (Some v) !! key with
  | Some own => Some (JsJson own)
  | None => inheritedMember engine v key
  end.

(** [ToNumber(v)], as the division of [getWeightedFiatAverage] applies it
    to a rate. *)
Definition ToNumber (v : JsAny) : number :=
  match v with
  | JsJson (JsNumber n) => n
  | JsJson JsNull => 0%float
  | JsJson (JsBoolean b) => if b then 1%float else 0%float
  | _ => toNumberOther engine v
  end.

Definition apiUrl : string := "https://api.exchangerate-api.com/v4/latest/USD".

Definition initialize : Async unit :=
  file ← readJson_fiats;
  set_fiatConfig (default [] file).

Definition shouldRefreshCache : Async bool :=
  self ← getThis;
  match lastFetch self with
  | None => mret true
  | Some t => now ← Date_now; mret (bool_decide (now - t > CACHE_DURATION))
  end.

(** The object literal of [getDefaultRateForCurrency], entry by entry. *)
Definition defaultRatesTable : list (string * number) :=
    [ ("EUR", 0.85); ("CNY", 7.25); ("JPY", 110); ("GBP", 0.73); ("INR", 75);
      ("CAD", 1.25); ("AUD", 1.35); ("CHF", 0.90); ("SEK", 8.5); ("NOK", 8.8);
      ("DKK", 6.2); ("NZD", 1.45); ("SGD", 1.35); ("HKD", 7.8); ("KRW", 1200);
      ("BRL", 5.2); ("RUB", 75); ("ZAR", 15); ("AED", 3.67); ("SAR", 3.75);
      ("TRY", 8.5); ("MXN", 20); ("THB", 32); ("IDR", 14500); ("MYR", 4.2);
      ("PHP", 50); ("PLN", 3.8); ("HUF", 300); ("CZK", 22); ("CLP", 800);
      ("COP", 3800); ("ILS", 3.2); ("EGP", 15.7); ("PKR", 160); ("NGN", 410);
      ("KES", 110); ("BDT", 85); ("VND", 23000); ("ARS", 100); ("PEN", 3.7);
      ("QAR", 3.64); ("KWD", 0.30); ("BHD", 0.38); ("OMR", 0.38); ("MAD", 9.2);
      ("TND", 2.8); ("UAH", 27); ("LKR", 200); ("RON", 4.2); ("BGN", 1.65);
      ("HRK", 6.5) ]%float.

Definition defaultRates : gmap string number := list_to_map defaultRatesTable.
Arguments defaultRates : simpl never.

(** The object the literal evaluates to. *)
Definition defaultRatesObject : JsValue := JsObject (JsNumber <$> defaultRates).

(** [defaultRates[code] || 1.0] *)
Definition getDefaultRateForCurrency (code : string) : JsAny :=
  match getMember defaultRatesObject code with
  | Some r => if truthyAny r then r else num 1.0%float
  | None => num 1.0%float
  end.

(** [baseline?.fiat_rates?.[code]]: [undefined] when [baseline] or its
    [fiat_rates] is [null] or [undefined]. *)
Definition baselineRate (baseline : option JsValue) (code : string) : option JsAny :=
  match getProp baseline "fiat_rates" with
  | None | Some JsNull => None
  | Some fiat_rates => getMember fiat_rates code
  end.

(** The [else] branch of the loop body and the callback of the fallback
    [map]: the baseline rate when it is truthy, else the default rate.  The
    flag tells whether the default tier was used. *)
Definition baselineOrDefault (baseline : option JsValue) (cfg : FiatConfig)
  : FiatData * bool :=
  match baselineRate baseline (code cfg) with
  | Some r =>
      if truthyAny r then (mkFiatData cfg r, false)
      else (mkFiatData cfg (getDefaultRateForCurrency (code cfg)), true)
  | None => (mkFiatData cfg (getDefaultRateForCurrency (code cfg)), true)
  end.

(** The number that [rates[code] && typeof rates[code] === 'number'] lets
    through. *)
Definition usableRate (v : option JsValue) : option number :=
  match v with
  | Some (JsNumber r) =>
      if truthy v && String.eqb (typeof v) "number" then Some r else None
  | _ => None
  end.

(** One iteration of [for (const config of this.fiatConfig)], on the pair
    of [this.cachedRates] and the local [missingCurrencies]. *)
Definition reconcileStep (rates : gmap string JsValue) (baseline : option JsValue)
    (acc : list FiatData * list string) (cfg : FiatConfig)
  : list FiatData * list string :=
  let '(cached, missingCurrencies) := acc in
  if String.eqb (code cfg) "USD" then
    (cached ++ [mkFiatData cfg 1.0%float], missingCurrencies)
  else
    match usableRate (rates !! code cfg) with
    | Some r => (cached ++ [mkFiatData cfg r], missingCurrencies)
    | None =>
        let '(entry, defaulted) := baselineOrDefault baseline cfg in
        (cached ++ [entry],
         if defaulted then missingCurrencies ++ [code cfg] else missingCurrencies)
    end.

(** The whole loop, started from [this.cachedRates = []] and
    [missingCurrencies = []]. *)
Definition reconcileLoop (rates : gmap string JsValue) (baseline : option JsValue)
    (cfgs : list FiatConfig) : list FiatData * list string :=
  fold_left (reconcileStep rates baseline) cfgs ([], []).

(** The first half of the [try] block: request, status check, body, shape
    check.  It yields [responseData.rates]. *)
Definition fetchRates : Async (gmap string JsValue) :=
  response ← fetch apiUrl;
  (if negb (ok response) then
     throw (mkError ("Exchange Rate API error: " +:+ pretty (status response)
                       +:+ " " +:+ statusText response))
   else mret ());;
  responseData ← Response_json response;
  let rates := getProp (Some responseData) "rates" in
  if negb (truthy (Some responseData)) || negb (truthy rates)
     || negb (String.eqb (typeof rates) "object")
  then throw (mkError "Invalid API response structure")
  else mret (props_of rates).

(** The [try] block. *)
Definition fetchAndReconcile (baseline : option JsValue) : Async (list FiatData) :=
  rates ← fetchRates;
  self ← getThis;
  set_cachedRates (reconcileLoop rates baseline (fiatConfig self)).1;;
  now ← Date_now;
  set_lastFetch (Some now);;
  self ← getThis;
  mret (cachedRates self).

(** The [catch] block. *)
Definition baselineFallback (baseline : option JsValue) (error : Error)
  : Async (list FiatData) :=
  self ← getThis;
  set_cachedRates (map (λ cfg, (baselineOrDefault baseline cfg).1) (fiatConfig self));;
  now ← Date_now;
  set_lastFetch (Some now);;
  self ← getThis;
  mret (cachedRates self).

(** The closure handed to [withRetry]. *)
Definition refreshAttempt : Async (list FiatData) :=
  baseline ← readJson_baseline;
  tryCatch (fetchAndReconcile baseline) (baselineFallback baseline).

Section Retry.

(** The retry wrapper's bound and delay (utils/retry is not part of the
    sources). *)
Variable maxRetries : nat.
Variable retryDelay : Z.

(** Modelled from the spec: utils/retry is not part of the sources.
    Section 4.4: "retries the wrapped operation a bounded number of times
    [...] with a delay between attempts, re-raising the final failure if
    all attempts exhaust". *)
Fixpoint withRetryFrom {A} (retriesLeft : nat) (operation : Async A) : Async A :=
  match retriesLeft with
  | O => operation
  | S n => tryCatch operation (λ _, sleep retryDelay;; withRetryFrom n operation)
  end.

(** Modelled from the spec: [withRetry(operation)] of utils/retry, with
    [maxRetries] attempts in all and at least one. *)
Definition withRetry {A} (operation : Async A) : Async A :=
  withRetryFrom (Nat.pred maxRetries) operation.

Definition refreshRates : Async (list FiatData) :=
  withRetry refreshAttempt.

Definition getFiatRatesWithWeights : Async (list FiatData) :=
  self ← getThis;
  (if Nat.eqb (length (fiatConfig self)) 0 then initialize else mret ());;
  stale ← shouldRefreshCache;
  self ← getThis;
  if negb stale && Nat.ltb 0 (length (cachedRates self))
  then mret (cachedRates self)
  else refreshRates.

(** Section 4.4 read literally: the wrapper around the fetch+reconcile
    step only, the baseline path as handler of the final failure.  Kept
    for comparison with [refreshRates]. *)
Definition refreshRates_retried_fetch : Async (list FiatData) :=
  baseline ← readJson_baseline;
  tryCatch (withRetry (fetchAndReconcile baseline)) (baselineFallback baseline).

End Retry.

(** One step of the loop of [getWeightedFiatAverage], on the pair
    [(weightedSum, totalWeight)]. *)
Definition averageStep (acc : number * number) (fiat : FiatData) : number * number :=
  let '(weightedSum, totalWeight) := acc in
  let usdValue :=
    if String.eqb (code (config fiat)) "USD" then 1.0%float
    else (1.0 / ToNumber (rate fiat))%float in
  ((weightedSum + usdValue * weight (config fiat))%float,
   (totalWeight + weight (config fiat))%float).

Definition getWeightedFiatAverage (self : FiatApiService) : Completion number :=
  if Nat.eqb (length (cachedRates self)) 0 then
    Throw (mkError "No fiat rate data available")
  else
    let '(weightedSum, totalWeight) :=
      fold_left averageStep (cachedRates self) (0%float, 0%float) in
    if PrimFloat.eqb totalWeight 0%float then Throw (mkError "Invalid fiat weights")
    else Normal (weightedSum / totalWeight)%float.

Definition getAllFiatRates (self : FiatApiService) : list FiatData :=
  cachedRates self.

(** [cachedCodes.includes(code)] *)
Definition includes (l : list string) (x : string) : bool :=
  existsb (String.eqb x) l.

Definition getMissingCurrencies (self : FiatApiService) : list string :=
  let configCodes := map code (fiatConfig self) in
  let cachedCodes := map (λ r, code (config r)) (cachedRates self) in
  filter (λ c, includes cachedCodes c = false) configCodes.

(** ** Derived notions: what one refresh does *)

(** The outcome of the request and checks of the next refresh. *)
Definition fetched (h : Heap) : Completion (gmap string JsValue) :=
  (fetchRates h).1.

(** The world once that request has been made. *)
Definition afterFetch (h : Heap) : World :=
  let w := world h in
  mkWorld (clock w + elapsed (api w (length (requests w))))
          (fiats_json w) (baseline_json w) (api w) (apiUrl :: requests w).

(** The entry the loop pushes for one configured currency. *)
Definition reconciledEntry (rates : gmap string JsValue) (baseline : option JsValue)
    (cfg : FiatConfig) : FiatData :=
  if String.eqb (code cfg) "USD" then mkFiatData cfg 1.0%float
  else match usableRate (rates !! code cfg) with
       | Some r => mkFiatData cfg r
       | None => (baselineOrDefault baseline cfg).1
       end.

(** The rate list a refresh caches: the loop's after a successful fetch,
    the fallback [map]'s after a failed one. *)
Definition reconciled (baseline : option JsValue)
    (f : Completion (gmap string JsValue)) (cfgs : list FiatConfig) : list FiatData :=
  match f with
  | Normal rates => (reconcileLoop rates baseline cfgs).1
  | Throw _ => map (λ cfg, (baselineOrDefault baseline cfg).1) cfgs
  end.

(** The heap a refresh leaves behind. *)
Definition refreshed (h : Heap) : Heap :=
  mkHeap (mkFiatApiService
            (reconciled (baseline_json (world h)) (fetched h) (fiatConfig (this h)))
            (fiatConfig (this h))
            (Some (clock (afterFetch h))))
         (afterFetch h).

(** The usable rate of the fetch for a code: none when the fetch failed. *)
Definition fetchedUsable (f : Completion (gmap string JsValue)) (c : string)
  : option number :=
  match f with
  | Normal rates => usableRate (rates !! c)
  | Throw _ => None
  end.

(** The usable rate of the baseline for a code: the one [if (baselineRate)]
    accepts. *)
Definition baselineUsable (baseline : option JsValue) (c : string) : option JsAny :=
  match baselineRate baseline c with
  | Some r => if truthyAny r then Some r else None
  | None => None
  end.

(** ** Derived notions: the cache *)

(** The heap once [getFiatRatesWithWeights] has made sure a configuration
    is loaded: [initialize()] runs when [fiatConfig] is empty. *)
Definition initialized (h : Heap) : Heap :=
  if Nat.eqb (length (fiatConfig (this h))) 0 then
    mkHeap (mkFiatApiService (cachedRates (this h))
                             (default [] (fiats_json (world h)))
                             (lastFetch (this h)))
           (world h)
  else h.

(** The age of the snapshot does not exceed the TTL. *)
Definition withinTTL (h : Heap) : Prop :=
  ∃ t, lastFetch (this h) = Some t ∧ clock (world h) - t ≤ CACHE_DURATION.

(** No fetch has ever completed, or the age of the snapshot exceeds the
    TTL. *)
Definition expired (h : Heap) : Prop :=
  lastFetch (this h) = None
  ∨ ∃ t, lastFetch (this h) = Some t ∧ clock (world h) - t > CACHE_DURATION.

(** ** Scenarios *)

Definition usd : FiatConfig := mkFiatConfig "USD" "US Dollar" 1%float.
Definition eur : FiatConfig := mkFiatConfig "EUR" "Euro" 1%float.
Definition xyz : FiatConfig := mkFiatConfig "XYZ" "Unlisted" 1%float.

(** A 200 response whose body is [{rates: ...}], after 5 ms. *)
Definition respond (rates : gmap string JsValue) : Exchange :=
  mkExchange 5
    (FetchResolves
       (mkResponse true 200 "OK" (Normal (JsObject {[ "rates" := JsObject rates ]})))).

(** A request that fails on the network, after 5 ms. *)
Definition unreachable : Exchange :=
  mkExchange 5 (FetchRejects (mkError "fetch failed")).

(** A baseline.json whose [fiat_rates] lists the given rates. *)
Definition baselineOf (rates : gmap string number) : option JsValue :=
  Some (JsObject {[ "fiat_rates" := JsObject (JsNumber <$> rates) ]}).

(** The end-to-end scenario of section 8: config [USD, EUR, XYZ], the fetch
    returns [{EUR: 0.9}], the baseline has no XYZ. *)
Definition h_partial : Heap :=
  mkHeap (mkFiatApiService [] [usd; eur; xyz] None)
         (mkWorld 1000 (Some [usd; eur; xyz])
                  (baselineOf {[ "EUR" := 0.92%float; "GBP" := 0.79%float ]})
                  (λ _, respond {[ "EUR" := JsNumber 0.9%float ]}) []).

(** The API is down and baseline.json lists USD at 2. *)
Definition h_usd_baseline : Heap :=
  mkHeap (mkFiatApiService [] [usd; eur] None)
         (mkWorld 1000 (Some [usd; eur])
                  (baselineOf {[ "USD" := 2%float; "EUR" := 0.92%float ]})
                  (λ _, unreachable) []).

(** All three tiers at once: EUR is fetched, GBP comes from the baseline,
    JPY from the default table, and XYZ is in neither. *)
Definition gbp : FiatConfig := mkFiatConfig "GBP" "Pound Sterling" 1%float.
Definition jpy : FiatConfig := mkFiatConfig "JPY" "Yen" 1%float.

Definition h_tiers : Heap :=
  mkHeap (mkFiatApiService [] [usd; eur; gbp; jpy; xyz] None)
         (mkWorld 1000 (Some [usd; eur; gbp; jpy; xyz])
                  (baselineOf {[ "GBP" := 0.79%float ]})
                  (λ _, respond {[ "EUR" := JsNumber 0.9%float ]}) []).

(** A configured currency whose code is the name of a member every object
    inherits; the API does not list it and baseline.json cannot be read. *)
Definition inheritedCode : FiatConfig := mkFiatConfig "toString" "Inherited" 1%float.

Definition h_inherited : Heap :=
  mkHeap (mkFiatApiService [] [usd; inheritedCode] None)
         (mkWorld 1000 (Some [usd; inheritedCode]) None
                  (λ _, respond {[ "EUR" := JsNumber 0.9%float ]}) []).


(** ** The weighted average as section 4.5 words it *)

(** The USD value of an entry under the fiat convention: 1 for USD, the
    inverse of the rate otherwise. *)
Definition usdValue (fiat : FiatData) : number :=
  if String.eqb (code (config fiat)) "USD" then 1.0%float
  else (1.0 / ToNumber (rate fiat))%float.

(** A sum of numbers, accumulated in list order from 0. *)
Definition Sigma (xs : list number) : number :=
  fold_left PrimFloat.add xs 0%float.

Definition totalWeight (rates : list FiatData) : number :=
  Sigma (map (λ fiat, weight (config fiat)) rates).

(** [Σ(usdValue × weight) / Σ(weight)] *)
Definition weightedAverage_spec (rates : list FiatData) : number :=
  (Sigma (map (λ fiat, usdValue fiat * weight (config fiat))%float rates)
   / totalWeight rates)%float.



(** A service that has not loaded anything yet. *)
Definition emptyService : FiatApiService := mkFiatApiService [] [] None.

(** ** Scenarios for the cache and the retry wrapper *)

(** Nothing is configured: fiats.json cannot be read. *)
Definition h_unconfigured : Heap :=
  mkHeap emptyService
         (mkWorld 1000 None (baselineOf {[ "EUR" := 0.92%float ]})
                  (λ _, respond {[ "EUR" := JsNumber 0.9%float ]}) []).

(** The first request fails on the network, every later one succeeds. *)
Definition h_flaky : Heap :=
  mkHeap (mkFiatApiService [] [usd; eur] None)
         (mkWorld 1000 (Some [usd; eur]) (baselineOf {[ "EUR" := 0.92%float ]})
                  (λ k, match k with
                        | O => unreachable
                        | S _ => respond {[ "EUR" := JsNumber 0.9%float ]}
                        end) []).

(** The heap after a first call in the end-to-end scenario: three cached
    rates, fetched at time 1005. *)
Definition h_cached : Heap := (getFiatRatesWithWeights 3 1000 h_partial).2.

(** The heap after a first call with nothing configured: an empty cached
    list, fetched at time 1005. *)
Definition h_cached_empty : Heap := (getFiatRatesWithWeights 3 1000 h_unconfigured).2.

(** ** Scenarios for further properties *)

(** A service holding live rates cached at time 1005. *)
Definition serviceWithLiveRates : FiatApiService :=
  mkFiatApiService [mkFiatData usd 1.0%float; mkFiatData eur 0.9%float] [usd; eur]
                   (Some 1005).

(** The same configuration with nothing cached. *)
Definition serviceWithoutRates : FiatApiService :=
  mkFiatApiService [] [usd; eur] None.

(** The world of [h_usd_baseline] one minute later. *)
Definition worldOneMinuteLater : World :=
  mkWorld 61005 (Some [usd; eur])
          (baselineOf {[ "USD" := 2%float; "EUR" := 0.92%float ]})
          (λ _, unreachable) [apiUrl].

(** Two cached entries hold the same configuration and, unless their code
    is USD, the same rate. *)
Definition sameUpToUsdRate (a b : FiatData) : Prop :=
  config a = config b ∧ (code (config a) ≠ "USD" → rate a = rate b).

(** The cache of the fallback branch with USD at the baseline's 2 ... *)
Definition serviceUsdAtTwo : FiatApiService :=
  mkFiatApiService [mkFiatData usd 2%float; mkFiatData eur 0.92%float] [usd; eur]
                   (Some 1005).

(** ... and the same cache with USD at 1. *)
Definition serviceUsdAtOne : FiatApiService :=
  mkFiatApiService [mkFiatData usd 1.0%float; mkFiatData eur 0.92%float] [usd; eur]
                   (Some 1005).

(** ** index.ts: the CORS middleware *)

(** [Boolean(v)] for a string or [undefined]. *)
Definition Boolean (v : option string) : bool :=
  match v with
  | Some s => negb (String.eqb s "")
  | None => false
  end.

(** The array literal of the middleware after [.filter(Boolean)];
    [FRONTEND_URL] is [process.env.FRONTEND_URL]. *)
Definition allowedOrigins (FRONTEND_URL : option string) : list string :=
  omap (λ v, if Boolean v then v else None)
       [ Some "http://localhost:5173"; Some "http://localhost:5174";
         Some "http://localhost:3000"; FRONTEND_URL;
         Some "https://avgx.vercel.app"; Some "https://avgx-frontend.vercel.app" ].

(** How a middleware ends: [res.sendStatus(code)] or [next()]. *)
Inductive Handled :=
  | SendStatus (code : Z)
  | Next.

(** The first [app.use]: from the request's method and [Origin] header and
    the headers set so far to the headers of the response and the way the
    middleware ends.  [res.header(name, value)] sets one header. *)
Definition corsMiddleware (FRONTEND_URL : option string) (method : string)
    (origin : option string) (headers : gmap string string)
  : gmap string string * Handled :=
  let allowed := allowedOrigins FRONTEND_URL in
  let headers :=
    match origin with
    | Some o =>
        if Boolean origin && includes allowed o then
          <["Access-Control-Allow-Origin" := o]> headers
        else if Nat.ltb 0 (length allowed) then
          match head allowed with
          | Some first => <["Access-Control-Allow-Origin" := first]> headers
          | None => headers
          end
        else headers
    | None =>
        if Nat.ltb 0 (length allowed) then
          match head allowed with
          | Some first => <["Access-Control-Allow-Origin" := first]> headers
          | None => headers
          end
        else headers
    end in
  let headers :=
    <["Access-Control-Allow-Methods" := "GET, POST, PUT, DELETE, OPTIONS"]> headers in
  let headers :=
    <["Access-Control-Allow-Headers" :=
        "Origin, X-Requested-With, Content-Type, Accept, Authorization"]> headers in
  let headers := <["Access-Control-Allow-Credentials" := "true"]> headers in
  if String.eqb method "OPTIONS" then (headers, SendStatus 200) else (headers, Next).

(** ** index.ts: the request log *)

(** A JavaScript string as its UTF-16 code units: [length] and [slice]
    count those. *)
Abbreviation jsstring := (list N).

(** An ASCII literal of the source. *)
Definition js (s : string) : jsstring :=
  map Ascii.N_of_ascii (String.list_ascii_of_string s).

(** [s.startsWith(p)] *)
Definition startsWith (s p : jsstring) : bool :=
  bool_decide (take (length p) s = p).

(** The one code unit of the ellipsis literal, U+2026. *)
Definition ellipsis : jsstring := [8230%N].

Section RequestLog.

(** How a template literal renders a number, and [JSON.stringify]. *)
Variable Number_toString : Z → jsstring.
Variable JSON_stringify : JsValue → jsstring.

(** The line before it is cut: method, path, status and duration, then
    the body of the response when one was captured and is truthy. *)
Definition untruncatedLogLine (method path : jsstring) (statusCode duration : Z)
    (captured : option JsValue) : jsstring :=
  method ++ js " " ++ path ++ js " " ++ Number_toString statusCode
         ++ js " in " ++ Number_toString duration ++ js "ms"
         ++ match captured with
            | Some bodyJson =>
                if truthy captured then js " :: " ++ JSON_stringify bodyJson else []
            | None => []
            end.

(** The [finish] listener of the second [app.use]: the line it hands to
    [console.log] (before the time stamp is put in front), if any.
    [captured] is [capturedJsonResponse]. *)
Definition finishLogLine (method path : jsstring) (statusCode duration : Z)
    (captured : option JsValue) : option jsstring :=
  if startsWith path (js "/api") then
    let logLine :=
      method ++ js " " ++ path ++ js " " ++ Number_toString statusCode
             ++ js " in " ++ Number_toString duration ++ js "ms" in
    let logLine :=
      match captured with
      | Some bodyJson =>
          if truthy captured then logLine ++ js " :: " ++ JSON_stringify bodyJson
          else logLine
      | None => logLine
      end in
    let logLine :=
      if Nat.ltb 80 (length logLine) then take 79 logLine ++ ellipsis else logLine in
    Some logLine
  else None.

End RequestLog.

(** ** routes.ts: the routes over the history and the fiat rates *)

(** A response as the handlers build it: [res.status(code).json(body)],
    the status being 200 unless set. *)
Record HttpResponse (B : Type) := mkHttpResponse {
  statusCode : Z;
  body : B;
}.
Arguments mkHttpResponse {B} statusCode body.
Arguments statusCode {B} _.
Arguments body {B} _.

(** A value of [req.query]: a string, or an array or object of the query
    parser (truthy, and equal to no string). *)
Inductive QueryValue :=
  | QString (s : string)
  | QStructured.

(** An entry of the history, as far as the routes read it. *)
Record HistoryPoint (Timestamp : Type) := mkHistoryPoint {
  timestamp : Timestamp;
  avgx_usd : number;
}.
Arguments mkHistoryPoint {Timestamp} timestamp avgx_usd.
Arguments timestamp {Timestamp} _.
Arguments avgx_usd {Timestamp} _.

(** The body of /api/history: the series, or [{success: false, message}]. *)
Inductive HistoryBody (Timestamp : Type) :=
  | HistoryData (timeframe : string) (data : list (HistoryPoint Timestamp)) (count : nat)
  | HistoryFailure (message : string).
Arguments HistoryData {Timestamp} timeframe data count.
Arguments HistoryFailure {Timestamp} message.

(** An entry of the legacy chart: [{timestamp: new Date(h.timestamp),
    value: h.avgx_usd}]. *)
Record ChartPoint (JsDate : Type) := mkChartPoint {
  chart_timestamp : JsDate;
  value : number;
}.
Arguments mkChartPoint {JsDate} chart_timestamp value.
Arguments chart_timestamp {JsDate} _.
Arguments value {JsDate} _.

Definition validTimeframes : list string := ["24h"; "7d"; "30d"].

Section HistoryRoutes.

Context {Timestamp JsDate : Type}.

(** [avgxCalculatorService.getHistoricalData] (services/avgx-calculator is
    not part of the sources): what a call with a given timeframe resolves or
    rejects with.  [new Date(...)] likewise. *)
Variable getHistoricalData : string → Completion (list (HistoryPoint Timestamp)).
Variable newDate : Timestamp → JsDate.

(** GET /api/history.  Beside the response, the timeframes the service was
    called with. *)
Definition historyRoute (query_timeframe : option QueryValue)
  : HttpResponse (HistoryBody Timestamp) * list string :=
  let timeframe :=
    match query_timeframe with
    | Some (QString s) => if String.eqb s "" then QString "24h" else QString s
    | Some QStructured => QStructured
    | None => QString "24h"
    end in
  match timeframe with
  | QString tf =>
      if includes validTimeframes tf then
        match getHistoricalData tf with
        | Normal history =>
            (mkHttpResponse 200 (HistoryData tf history (length history)), [tf])
        | Throw _ =>
            (mkHttpResponse 500 (HistoryFailure "Failed to fetch historical data"), [tf])
        end
      else
        (mkHttpResponse 400 (HistoryFailure "Invalid timeframe. Use: 24h, 7d, 30d"), [])
  | QStructured =>
      (mkHttpResponse 400 (HistoryFailure "Invalid timeframe. Use: 24h, 7d, 30d"), [])
  end.

(** GET /api/avgx/chart/:timeframe.  Beside the response, the timeframes
    the service was called with. *)
Definition chartRoute (timeframe : string)
  : HttpResponse (list (ChartPoint JsDate)) * list string :=
  let mappedTimeframe :=
    if String.eqb timeframe "1m" then "30d"
    else if String.eqb timeframe "1y" then "30d"
    else timeframe in
  match getHistoricalData mappedTimeframe with
  | Normal history =>
      (mkHttpResponse 200
         (map (λ h, mkChartPoint (newDate (timestamp h)) (avgx_usd h)) history),
       [mappedTimeframe])
  | Throw _ => (mkHttpResponse 200 [], [mappedTimeframe])
  end.

End HistoryRoutes.

(** The body of /api/avgx/fiat-rates. *)
Inductive FiatRatesBody :=
  | FiatRates (rates : list FiatData)
  | FiatRatesFailure (message : string).

(** GET /api/avgx/fiat-rates *)
Definition fiatRatesRoute (maxRetries : nat) (retryDelay : Z)
  : Async (HttpResponse FiatRatesBody) :=
  tryCatch
    (fiatRates ← getFiatRatesWithWeights maxRetries retryDelay;
     mret (mkHttpResponse 200 (FiatRates fiatRates)))
    (λ error, mret (mkHttpResponse 500 (FiatRatesFailure "Failed to get fiat rates"))).

(** ** Scenarios for the HTTP layer *)

(** A history service that knows the three valid timeframes only. *)
Definition historyOfThree (tf : string) : Completion (list (HistoryPoint Z)) :=
  if includes validTimeframes tf then Normal [mkHistoryPoint 1700000000000 1.5%float]
  else Throw (mkError "unknown timeframe").

(** A request line of 13 code units and a body that makes the log line
    longer than 80. *)
Definition longBody : jsstring := js (String.concat "" (repeat "0123456789" 10)).

(** * Properties *)

Ltac run_async :=
  cbv [mbind mret Async_bind Async_ret throw tryCatch getThis set_cachedRates
       set_fiatConfig set_lastFetch Date_now readJson_fiats readJson_baseline
       Response_json sleep].

Lemma fetchRates_heap (h : Heap) :
  (fetchRates h).2 = mkHeap (this h) (afterFetch h).
Proof.
  unfold fetchRates, fetch, afterFetch. run_async.
  destruct (outcome _) as [reason|response]; [reflexivity|].
  destruct (ok response); simpl; [|reflexivity].
  destruct (json response) as [responseData|e]; [|reflexivity].
  destruct (_ || _); reflexivity.
Qed.

Lemma fetchRates_eq (h : Heap) :
  fetchRates h = (fetched h, mkHeap (this h) (afterFetch h)).
Proof. rewrite <- fetchRates_heap. unfold fetched. by destruct (fetchRates h). Qed.

Lemma refreshAttempt_eq (h : Heap) :
  refreshAttempt h =
    (Normal (reconciled (baseline_json (world h)) (fetched h) (fiatConfig (this h))),
     refreshed h).
Proof.
  unfold refreshAttempt, fetchAndReconcile, baselineFallback, refreshed.
  run_async. rewrite fetchRates_eq.
  destruct (fetched h) as [rates|e]; reflexivity.
Qed.

(** An operation that returns at the first attempt is not retried. *)
Lemma withRetryFrom_first {A} (retryDelay : Z) (n : nat) (operation : Async A)
    (h h' : Heap) (a : A) :
  operation h = (Normal a, h') →
  withRetryFrom retryDelay n operation h = (Normal a, h').
Proof. intros Hop. destruct n as [|n]; simpl; unfold tryCatch; by rewrite ?Hop. Qed.

(** The same holds of any wrapper that hands back the result of an
    operation that returns: the closure handles its own failures. *)
Section AnyRetryWrapper.

Variable retry : Async (list FiatData) → Async (list FiatData).
Hypothesis retry_returns :
  ∀ operation h a h',
    operation h = (Normal a, h') → retry operation h = (Normal a, h').

Lemma refreshAttempt_not_retried (h : Heap) :
  retry refreshAttempt h = refreshAttempt h.
Proof. rewrite refreshAttempt_eq. apply retry_returns, refreshAttempt_eq. Qed.

End AnyRetryWrapper.

Lemma refreshRates_eq (maxRetries : nat) (retryDelay : Z) (h : Heap) :
  refreshRates maxRetries retryDelay h =
    (Normal (reconciled (baseline_json (world h)) (fetched h) (fiatConfig (this h))),
     refreshed h).
Proof. apply withRetryFrom_first, refreshAttempt_eq. Qed.

(** *** The loop, entry by entry *)

Lemma reconcileStep_fst rates baseline cached missing cfg :
  (reconcileStep rates baseline (cached, missing) cfg).1
  = cached ++ [reconciledEntry rates baseline cfg].
Proof.
  unfold reconcileStep, reconciledEntry.
  destruct (String.eqb _ _); [reflexivity|].
  destruct (usableRate _); [reflexivity|].
  by destruct (baselineOrDefault baseline cfg).
Qed.

Lemma reconcile_fold_fst rates baseline cfgs acc :
  (fold_left (reconcileStep rates baseline) cfgs acc).1
  = acc.1 ++ map (reconciledEntry rates baseline) cfgs.
Proof.
  revert acc. induction cfgs as [|cfg cfgs IH]; intros [cached missing];
    cbn [fold_left map fst].
  - by rewrite app_nil_r.
  - rewrite IH, reconcileStep_fst, <- app_assoc. reflexivity.
Qed.

Lemma reconcileLoop_fst rates baseline cfgs :
  (reconcileLoop rates baseline cfgs).1 = map (reconciledEntry rates baseline) cfgs.
Proof. unfold reconcileLoop. by rewrite reconcile_fold_fst. Qed.

Lemma baselineOrDefault_config baseline cfg :
  config (baselineOrDefault baseline cfg).1 = cfg.
Proof.
  unfold baselineOrDefault.
  destruct (baselineRate _ _) as [r|]; [destruct (truthyAny r)|]; reflexivity.
Qed.

Lemma reconciledEntry_config rates baseline cfg :
  config (reconciledEntry rates baseline cfg) = cfg.
Proof.
  unfold reconciledEntry. destruct (String.eqb _ _); [reflexivity|].
  destruct (usableRate _); [reflexivity|]. apply baselineOrDefault_config.
Qed.

Lemma reconciled_config baseline f cfgs :
  map config (reconciled baseline f cfgs) = cfgs.
Proof.
  destruct f as [rates|e]; simpl.
  - rewrite reconcileLoop_fst, map_map.
    erewrite map_ext; [apply map_id|]. apply reconciledEntry_config.
  - rewrite map_map. erewrite map_ext; [apply map_id|].
    apply baselineOrDefault_config.
Qed.

(** ** Total coverage *)

(** C1. Whatever the configured list, the outcome of the fetch and the
    baseline, [refreshRates()] completes, and the rate list it caches and
    returns has exactly one entry per configured entry, in list order: entry
    [i] is configured entry [i] with a rate added, so the codes of the cached
    list are the configured codes, none dropped and none repeated. *)
Theorem refreshRates_total_coverage (maxRetries : nat) (retryDelay : Z) (h : Heap) :
  ∃ rates : list FiatData,
    (refreshRates maxRetries retryDelay h).1 = Normal rates
    ∧ cachedRates (this (refreshRates maxRetries retryDelay h).2) = rates
    ∧ fiatConfig (this (refreshRates maxRetries retryDelay h).2) = fiatConfig (this h)
    ∧ map config rates = fiatConfig (this h)
    ∧ map (λ r, code (config r)) rates = map code (fiatConfig (this h))
    ∧ length rates = length (fiatConfig (this h)).
Proof.
  rewrite refreshRates_eq. eexists. split; [reflexivity|]. simpl.
  pose proof (reconciled_config (baseline_json (world h)) (fetched h)
                (fiatConfig (this h))) as Hcfg.
  repeat split; try done.
  - rewrite <- Hcfg at 2. by rewrite map_map.
  - rewrite <- Hcfg at 2. by rewrite length_map.
Qed.

(** ** Fallback order *)


Lemma usableRate_None (v : option JsValue) :
  usableRate v = None ↔ truthy v = false ∨ typeof v ≠ "number".
Proof.
  destruct v as [[| b | n | s | o]|]; simpl;
    try destruct (truthy_number n); simpl; intuition (discriminate || congruence).
Qed.

Lemma defaultRatesTable_truthy :
  Forall (λ p, truthy_number p.2 = true) defaultRatesTable.
Proof. unfold defaultRatesTable. repeat (constructor; [by vm_compute|]). constructor. Qed.

Lemma defaultRates_truthy (c : string) (r : number) :
  defaultRates !! c = Some r → truthy_number r = true.
Proof.
  intros Hc. apply elem_of_list_to_map_2 in Hc.
  pose proof defaultRatesTable_truthy as Hall.
  rewrite Forall_forall in Hall. apply (Hall (c, r)), Hc.
Qed.

Lemma getMember_own (v : JsValue) (key : string) (own : JsValue) :
  props_of (Some v) !! key = Some own → getMember v key = Some (JsJson own).
Proof. intros Hown. unfold getMember. by rewrite Hown. Qed.

Lemma getMember_not_own (v : JsValue) (key : string) :
  props_of (Some v) !! key = None → getMember v key = inheritedMember engine v key.
Proof. intros Hown. unfold getMember. by rewrite Hown. Qed.

(** The default rate of a code the table lists is the table's value: an
    own property shadows whatever the object inherits. *)
Lemma getDefaultRateForCurrency_listed (c : string) (r : number) :
  defaultRates !! c = Some r → getDefaultRateForCurrency c = num r.
Proof.
  intros Hc. unfold getDefaultRateForCurrency.
  rewrite (getMember_own defaultRatesObject c (JsNumber r)).
  - cbn [truthyAny truthy]. by rewrite (defaultRates_truthy c r Hc).
  - cbn [props_of defaultRatesObject]. by rewrite lookup_fmap, Hc.
Qed.

(** The default rate of a code the table does not list is what the table
    object inherits under that name, when that is truthy, and [1.0]
    otherwise. *)
Lemma getDefaultRateForCurrency_not_listed (c : string) :
  defaultRates !! c = None →
  getDefaultRateForCurrency c
  = match inheritedMember engine defaultRatesObject c with
    | Some r => if truthyAny r then r else num 1.0%float
    | None => num 1.0%float
    end.
Proof.
  intros Hc. unfold getDefaultRateForCurrency.
  rewrite getMember_not_own; [done|].
  cbn [props_of defaultRatesObject]. by rewrite lookup_fmap, Hc.
Qed.

(** [baseline?.fiat_rates?.[code]] on a document that lists the code. *)
Lemma baselineRate_own (baseline : option JsValue) (b fr : gmap string JsValue)
    (c : string) (v : JsValue) :
  baseline = Some (JsObject b) →
  b !! "fiat_rates" = Some (JsObject fr) →
  fr !! c = Some v →
  baselineRate baseline c = Some (JsJson v).
Proof.
  intros -> Hfr Hv. unfold baselineRate, getProp. cbn [props_of]. rewrite Hfr.
  by apply getMember_own.
Qed.

Lemma baselineOrDefault_fst (baseline : option JsValue) (cfg : FiatConfig) :
  (baselineOrDefault baseline cfg).1
  = mkFiatData cfg (default (getDefaultRateForCurrency (code cfg))
                            (baselineUsable baseline (code cfg))).
Proof.
  unfold baselineOrDefault, baselineUsable.
  destruct (baselineRate _ _) as [r|]; [destruct (truthyAny r)|]; reflexivity.
Qed.

Lemma map_fmap {A B} (f : A → B) (l : list A) : map f l = f <$> l.
Proof. induction l as [|x l IH]; csimpl; [done|by rewrite IH]. Qed.

(** Entry [i] of the reconciled list, for a code the fetch has no usable
    rate for. *)
Lemma reconciled_lookup_fallback baseline f cfgs (i : nat) (cfg : FiatConfig) :
  cfgs !! i = Some cfg →
  code cfg ≠ "USD" →
  fetchedUsable f (code cfg) = None →
  reconciled baseline f cfgs !! i = Some (baselineOrDefault baseline cfg).1.
Proof.
  intros Hi Husd Hf. destruct f as [rates|e]; simpl in *.
  - rewrite reconcileLoop_fst, map_fmap, list_lookup_fmap, Hi. simpl.
    unfold reconciledEntry. rewrite Hf.
    destruct (String.eqb_spec (code cfg) "USD"); done.
  - by rewrite map_fmap, list_lookup_fmap, Hi.
Qed.

(** The fetch has no usable rate for a code: it failed, or any number its
    mapping holds for the code is zero or NaN. *)
Lemma fetchedUsable_None (f : Completion (gmap string JsValue)) (c : string) :
  (∀ rates r, f = Normal rates → rates !! c = Some (JsNumber r) →
              truthy_number r = false) →
  fetchedUsable f c = None.
Proof.
  intros Hf. destruct f as [rates|e]; [|done]. cbn [fetchedUsable].
  apply usableRate_None.
  destruct (rates !! c) as [[| b | r | s | o]|] eqn:Hc; cbn [truthy typeof];
    try (right; discriminate); try by left.
  left. by apply (Hf rates r).
Qed.

(** X16. The order of the fallback, for a configured code other than USD
    for which the fetch has no usable rate (it failed, or any number it
    holds for the code is zero or NaN).  When baseline.json is an object
    whose [fiat_rates] is an object that lists the code with a truthy value,
    the cached rate is that value.  When baseline.json cannot be read, or has
    no [fiat_rates], or its [fiat_rates] neither lists nor inherits the code
    or lists it with a falsy value, the cached rate is the value of the
    default table for a code the table lists, and 1.0 for a code that the
    table neither lists nor inherits. *)
Theorem fallback_order_by_tier (maxRetries : nat) (retryDelay : Z) (h : Heap)
    (i : nat) (cfg : FiatConfig) :
  let entry := cachedRates (this (refreshRates maxRetries retryDelay h).2) !! i in
  fiatConfig (this h) !! i = Some cfg →
  code cfg ≠ "USD" →
  (∀ rates r, fetched h = Normal rates → rates !! code cfg = Some (JsNumber r) →
              truthy_number r = false) →
  (∀ (b fr : gmap string JsValue) (v : JsValue),
     baseline_json (world h) = Some (JsObject b) →
     b !! "fiat_rates" = Some (JsObject fr) →
     fr !! code cfg = Some v →
     truthy (Some v) = true →
     entry = Some (mkFiatData cfg (JsJson v)))
  ∧ (baseline_json (world h) = None
     ∨ (∃ b : gmap string JsValue,
          baseline_json (world h) = Some (JsObject b)
          ∧ (b !! "fiat_rates" = None
             ∨ ∃ fr : gmap string JsValue,
                 b !! "fiat_rates" = Some (JsObject fr)
                 ∧ (fr !! code cfg = None
                    ∧ inheritedMember engine (JsObject fr) (code cfg) = None
                    ∨ ∃ v, fr !! code cfg = Some v ∧ truthy (Some v) = false))) →
     (∀ r : number, defaultRates !! code cfg = Some r →
                    entry = Some (mkFiatData cfg r))
     ∧ (defaultRates !! code cfg = None →
        inheritedMember engine defaultRatesObject (code cfg) = None →
        entry = Some (mkFiatData cfg 1.0%float))).
Proof.
  intros entry Hi Husd Hf. subst entry.
  rewrite refreshRates_eq. cbn [snd refreshed this cachedRates].
  rewrite (reconciled_lookup_fallback _ _ _ i cfg Hi Husd
             (fetchedUsable_None _ _ Hf)).
  rewrite baselineOrDefault_fst. split.
  - intros b fr v Hb Hfr Hv Ht. unfold baselineUsable.
    rewrite (baselineRate_own _ b fr (code cfg) v Hb Hfr Hv).
    cbn [truthyAny]. by rewrite Ht.
  - intros Hnone.
    assert (Hunusable : baselineUsable (baseline_json (world h)) (code cfg) = None).
    { unfold baselineUsable, baselineRate, getProp, getMember.
      destruct Hnone as [->|(b & -> & [Hfr|(fr & Hfr & [[Hc Hinh]|(v & Hc & Hv)])])];
        cbn [props_of]; rewrite ?lookup_empty, ?Hfr; cbn [props_of];
        rewrite ?Hc, ?Hinh; cbn [truthyAny]; by rewrite ?Hv. }
    rewrite Hunusable. cbn [default]. split.
    + intros r Hr. by rewrite (getDefaultRateForCurrency_listed _ r Hr).
    + intros Hr Hinh. by rewrite (getDefaultRateForCurrency_not_listed _ Hr), Hinh.
Qed.

(** ** The reference asset *)

(** After a successful fetch the loop pins every USD entry to 1.0, whatever
    the response and the baseline hold. *)
Lemma usd_rate_after_successful_fetch (maxRetries : nat) (retryDelay : Z) (h : Heap)
    (rates : gmap string JsValue) (i : nat) (cfg : FiatConfig) :
  fetched h = Normal rates →
  fiatConfig (this h) !! i = Some cfg →
  code cfg = "USD" →
  cachedRates (this (refreshRates maxRetries retryDelay h).2) !! i
  = Some (mkFiatData cfg 1.0%float).
Proof.
  intros Hf Hi Husd. rewrite refreshRates_eq. cbn [snd refreshed this cachedRates].
  rewrite Hf. cbn [reconciled].
  rewrite reconcileLoop_fst, map_fmap, list_lookup_fmap, Hi. cbn [fmap option_fmap option_map].
  unfold reconciledEntry. by rewrite Husd.
Qed.

(** After a failed fetch the USD entry is 1.0 when the baseline has no
    usable rate for USD (and the default table inherits no member of that
    name). *)
Lemma usd_rate_after_failed_fetch (maxRetries : nat) (retryDelay : Z) (h : Heap)
    (e : Error) (i : nat) (cfg : FiatConfig) :
  fetched h = Throw e →
  fiatConfig (this h) !! i = Some cfg →
  code cfg = "USD" →
  baselineUsable (baseline_json (world h)) "USD" = None →
  inheritedMember engine defaultRatesObject "USD" = None →
  cachedRates (this (refreshRates maxRetries retryDelay h).2) !! i
  = Some (mkFiatData cfg 1.0%float).
Proof.
  intros Hf Hi Husd Hb Hinh. rewrite refreshRates_eq.
  cbn [snd refreshed this cachedRates]. rewrite Hf. cbn [reconciled].
  rewrite map_fmap, list_lookup_fmap, Hi. cbn [fmap option_fmap option_map].
  rewrite baselineOrDefault_fst, Husd, Hb. cbn [default].
  rewrite getDefaultRateForCurrency_not_listed by (by vm_compute).
  by rewrite Hinh.
Qed.

(** ** Which fetched values are used *)








Lemma getDefaultRateForCurrency_truthy (c : string) :
  truthyAny (getDefaultRateForCurrency c) = true.
Proof.
  unfold getDefaultRateForCurrency.
  destruct (getMember defaultRatesObject c) as [r|]; [|by vm_compute].
  destruct (truthyAny r) eqn:Hr; [done|by vm_compute].
Qed.

Lemma defaultRatesTable_positive :
  Forall (λ p, PrimFloat.ltb 0%float p.2 = true) defaultRatesTable.
Proof. unfold defaultRatesTable. repeat (constructor; [by vm_compute|]). constructor. Qed.

Lemma getDefaultRateForCurrency_positive (c : string) :
  inheritedMember engine defaultRatesObject c = None →
  ∃ r : number,
    getDefaultRateForCurrency c = num r ∧ PrimFloat.ltb 0%float r = true.
Proof.
  intros Hinh. destruct (defaultRates !! c) as [r|] eqn:Hc.
  - exists r. split; [by apply getDefaultRateForCurrency_listed|].
    apply elem_of_list_to_map_2 in Hc. pose proof defaultRatesTable_positive as Hall.
    rewrite Forall_forall in Hall. apply (Hall (c, r)), Hc.
  - exists 1.0%float. split; [|by vm_compute].
    by rewrite (getDefaultRateForCurrency_not_listed c Hc), Hinh.
Qed.






(** ** Missing currencies *)

Lemma includes_elem_of (l : list string) (x : string) :
  includes l x = true ↔ x ∈ l.
Proof.
  unfold includes. rewrite existsb_exists, list_elem_of_In. split.
  - by intros (y & Hy & ->%String.eqb_eq).
  - intros Hx. exists x. by rewrite String.eqb_refl.
Qed.

(** [getMissingCurrencies] lists, in configuration order, the configured
    codes that have no entry in the cache. *)
Lemma getMissingCurrencies_elem_of (self : FiatApiService) (c : string) :
  c ∈ getMissingCurrencies self
  ↔ c ∈ map code (fiatConfig self)
    ∧ c ∉ map (λ r, code (config r)) (cachedRates self).
Proof.
  unfold getMissingCurrencies. rewrite list_elem_of_filter.
  rewrite <- (includes_elem_of (map (λ r, code (config r)) (cachedRates self)) c).
  destruct (includes _ c); intuition congruence.
Qed.

Lemma filter_all_included (cached l : list string) :
  l ⊆ cached → filter (λ c, includes cached c = false) l = [].
Proof.
  induction l as [|c l IH]; intros Hsub; [done|].
  rewrite filter_cons_False.
  - apply IH. intros x Hx. apply Hsub. by right.
  - assert (Hc : includes cached c = true) by (apply includes_elem_of, Hsub; by left).
    by rewrite Hc.
Qed.

Lemma getMissingCurrencies_covered (self : FiatApiService) :
  map (λ r, code (config r)) (cachedRates self) = map code (fiatConfig self) →
  getMissingCurrencies self = [].
Proof.
  intros Hcov. unfold getMissingCurrencies. rewrite Hcov.
  by apply filter_all_included.
Qed.

(** The codes the loop collects in [missingCurrencies] are those of the
    default tier: not USD, no usable fetched rate, no usable baseline rate. *)
Lemma reconcileLoop_snd rates baseline cfgs :
  (reconcileLoop rates baseline cfgs).2
  = map code
      (filter (λ cfg, String.eqb (code cfg) "USD" = false
                      ∧ usableRate (rates !! code cfg) = None
                      ∧ baselineUsable baseline (code cfg) = None) cfgs).
Proof.
  unfold reconcileLoop.
  enough (Hgen : ∀ acc,
    (fold_left (reconcileStep rates baseline) cfgs acc).2
    = acc.2 ++ map code
        (filter (λ cfg, String.eqb (code cfg) "USD" = false
                        ∧ usableRate (rates !! code cfg) = None
                        ∧ baselineUsable baseline (code cfg) = None) cfgs))
    by apply Hgen.
  induction cfgs as [|cfg cfgs IH]; intros [cached missing]; cbn [fold_left snd].
  - by rewrite app_nil_r.
  - rewrite IH. unfold reconcileStep, baselineOrDefault, baselineUsable.
    destruct (String.eqb (code cfg) "USD") eqn:Husd.
    { rewrite filter_cons_False; [done|]. rewrite Husd. intuition congruence. }
    destruct (usableRate (rates !! code cfg)) as [r|] eqn:Hu.
    { rewrite filter_cons_False; [done|]. rewrite Hu. intuition congruence. }
    destruct (baselineRate baseline (code cfg)) as [b|] eqn:Hb;
      [destruct (truthyAny b) eqn:Ht|].
    + rewrite filter_cons_False; [done|].
      rewrite Husd, Hu, Hb, Ht. intuition congruence.
    + rewrite filter_cons_True; [|by rewrite Husd, Hu, Hb, Ht].
      cbn [snd map]. by rewrite <- app_assoc.
    + rewrite filter_cons_True; [|by rewrite Husd, Hu, Hb].
      cbn [snd map]. by rewrite <- app_assoc.
Qed.

(** What the getter does compute: the configured codes that have no entry
    in the cached rate list.  After a completed [refreshRates()] every
    configured code has an entry, so the list is empty whichever codes fell
    through to the default tier. *)
Lemma getMissingCurrencies_after_refresh (maxRetries : nat) (retryDelay : Z) :
  (∀ (self : FiatApiService) (c : string),
     c ∈ getMissingCurrencies self
     ↔ c ∈ map code (fiatConfig self)
       ∧ c ∉ map (λ r, code (config r)) (cachedRates self))
  ∧ (∀ h : Heap,
       getMissingCurrencies (this (refreshRates maxRetries retryDelay h).2) = [])
  ∧ getMissingCurrencies (this (refreshRates maxRetries retryDelay h_partial).2) = [].
Proof.
  assert (Hall : ∀ h : Heap,
    getMissingCurrencies (this (refreshRates maxRetries retryDelay h).2) = []).
  { intros h. apply getMissingCurrencies_covered.
    rewrite refreshRates_eq. cbn [snd refreshed this cachedRates fiatConfig].
    rewrite <- (reconciled_config (baseline_json (world h)) (fetched h)
                  (fiatConfig (this h))) at 2.
    by rewrite map_map. }
  split; [apply getMissingCurrencies_elem_of|]. split; [exact Hall|apply Hall].
Qed.

(** ** The weighted average *)

(** The loop of [getWeightedFiatAverage] computes the two sums side by
    side. *)
Lemma average_fold (rates : list FiatData) (ws tw : number) :
  fold_left averageStep rates (ws, tw)
  = (fold_left PrimFloat.add
       (map (λ fiat, usdValue fiat * weight (config fiat))%float rates) ws,
     fold_left PrimFloat.add (map (λ fiat, weight (config fiat)) rates) tw).
Proof.
  revert ws tw. induction rates as [|fiat rates IH]; intros ws tw; [done|].
  cbn [fold_left map]. unfold averageStep at 2. by rewrite IH.
Qed.

Lemma getWeightedFiatAverage_eq (self : FiatApiService) :
  getWeightedFiatAverage self
  = match cachedRates self with
    | [] => Throw (mkError "No fiat rate data available")
    | _ :: _ =>
        if PrimFloat.eqb (totalWeight (cachedRates self)) 0%float
        then Throw (mkError "Invalid fiat weights")
        else Normal (weightedAverage_spec (cachedRates self))
    end.
Proof.
  unfold getWeightedFiatAverage. destruct (cachedRates self) as [|fiat rates]; [done|].
  cbn [length Nat.eqb]. by rewrite average_fold.
Qed.



(** ** The cache *)

Lemma initialized_world (h : Heap) : world (initialized h) = world h.
Proof. unfold initialized. by destruct (Nat.eqb _ _). Qed.

Lemma initialized_cachedRates (h : Heap) :
  cachedRates (this (initialized h)) = cachedRates (this h).
Proof. unfold initialized. by destruct (Nat.eqb _ _). Qed.

Lemma initialized_lastFetch (h : Heap) :
  lastFetch (this (initialized h)) = lastFetch (this h).
Proof. unfold initialized. by destruct (Nat.eqb _ _). Qed.

(** The decision of [getFiatRatesWithWeights]. *)
Lemma getFiatRatesWithWeights_eq (maxRetries : nat) (retryDelay : Z) (h : Heap) :
  getFiatRatesWithWeights maxRetries retryDelay h
  = match lastFetch (this h), cachedRates (this h) with
    | Some t, _ :: _ =>
        if bool_decide (clock (world h) - t > CACHE_DURATION)
        then refreshRates maxRetries retryDelay (initialized h)
        else (Normal (cachedRates (this h)), initialized h)
    | _, _ => refreshRates maxRetries retryDelay (initialized h)
    end.
Proof.
  unfold getFiatRatesWithWeights, initialize, shouldRefreshCache, initialized.
  run_async.
  destruct (Nat.eqb (length (fiatConfig (this h))) 0);
    destruct (lastFetch (this h)) as [t|];
    cbn [this lastFetch cachedRates world clock];
    try destruct (bool_decide (clock (world h) - t > CACHE_DURATION));
    destruct (cachedRates (this h)); reflexivity.
Qed.

Lemma refreshRates_requests (maxRetries : nat) (retryDelay : Z) (h : Heap) :
  requests (world (refreshRates maxRetries retryDelay h).2)
  = apiUrl :: requests (world h).
Proof. by rewrite refreshRates_eq. Qed.

Lemma refreshRates_lastFetch (maxRetries : nat) (retryDelay : Z) (h : Heap) :
  lastFetch (this (refreshRates maxRetries retryDelay h).2)
  = Some (clock (world (refreshRates maxRetries retryDelay h).2)).
Proof. by rewrite refreshRates_eq. Qed.

Lemma refresh_after_initialize_requests (maxRetries : nat) (retryDelay : Z) (h : Heap) :
  requests (world (refreshRates maxRetries retryDelay (initialized h)).2)
  = apiUrl :: requests (world h).
Proof. by rewrite refreshRates_requests, initialized_world. Qed.

Lemma cons_neq {A} (x : A) (l : list A) : x :: l ≠ l.
Proof. intros Heq. apply (f_equal length) in Heq. simpl in Heq. lia. Qed.

(** A call either answers from the cache, leaving the world, the cached
    list and [lastFetch] as they were, or runs one refresh. *)
Lemma getFiatRatesWithWeights_cases (maxRetries : nat) (retryDelay : Z) (h : Heap) :
  (withinTTL h ∧ cachedRates (this h) ≠ []
   ∧ getFiatRatesWithWeights maxRetries retryDelay h
     = (Normal (cachedRates (this h)), initialized h))
  ∨ ((expired h ∨ cachedRates (this h) = [])
     ∧ getFiatRatesWithWeights maxRetries retryDelay h
       = refreshRates maxRetries retryDelay (initialized h)).
Proof.
  rewrite getFiatRatesWithWeights_eq. unfold withinTTL, expired.
  destruct (lastFetch (this h)) as [t|] eqn:Ht.
  - destruct (cachedRates (this h)) as [|fiat rates] eqn:Hc; [right; by auto|].
    case_bool_decide as Hage.
    + right. split; [|done]. left. right. by exists t.
    + left. split; [exists t; split; [done|lia]|]. by split.
  - right. split; [by auto|]. by destruct (cachedRates (this h)).
Qed.

(** C8, amended.  A call made while the age of the snapshot does not exceed
    the 60-second TTL and the cached list is not empty returns the cached
    list without a refresh: no request is made, the cached list and
    [lastFetch] stay as they are.  A call made when the age exceeds the TTL,
    or when no fetch has ever completed, runs a refresh, which makes one
    request and sets [lastFetch] to the time of its completion.  In every
    call [lastFetch] changes only if a refresh ran. *)
Theorem cache_ttl (maxRetries : nat) (retryDelay : Z) (h : Heap) :
  let call := getFiatRatesWithWeights maxRetries retryDelay h in
  (withinTTL h → cachedRates (this h) ≠ [] →
   call.1 = Normal (cachedRates (this h))
   ∧ world call.2 = world h
   ∧ cachedRates (this call.2) = cachedRates (this h)
   ∧ lastFetch (this call.2) = lastFetch (this h))
  ∧ (expired h →
     call = refreshRates maxRetries retryDelay (initialized h)
     ∧ requests (world call.2) = apiUrl :: requests (world h)
     ∧ lastFetch (this call.2) = Some (clock (world call.2)))
  ∧ (lastFetch (this call.2) = lastFetch (this h) ∧ world call.2 = world h
     ∨ call = refreshRates maxRetries retryDelay (initialized h)
       ∧ requests (world call.2) = apiUrl :: requests (world h)).
Proof.
  intros call. subst call.
  destruct (getFiatRatesWithWeights_cases maxRetries retryDelay h)
    as [(Hin & Hne & ->)|(Hwhy & ->)]; cbn [fst snd].
  - rewrite initialized_world, initialized_cachedRates, initialized_lastFetch.
    split; [done|]. split; [|by left].
    intros [Hnone|(t & Ht & Hage)]; destruct Hin as (t' & Ht' & Hage').
    + congruence.
    + assert (t = t') by congruence. subst. lia.
  - rewrite refresh_after_initialize_requests, refreshRates_lastFetch.
    split; [|split; [done|by right]].
    intros Hin Hne. destruct Hwhy as [Hexp|Hempty]; [|done].
    destruct Hin as (t' & Ht' & Hage'). destruct Hexp as [Hnone|(t & Ht & Hage)].
    + congruence.
    + assert (t = t') by congruence. subst. lia.
Qed.

(** C10. A call answers from the cache without a refresh only when the
    snapshot is within the TTL and the cached list is not empty.  When
    [lastFetch] is within the TTL but the cached list is empty, as after a
    refresh that ran with an empty configuration, the call runs
    [refreshRates()] all the same and a request is made. *)
Theorem cache_hit_requires_nonempty_cache (maxRetries : nat) (retryDelay : Z) (h : Heap) :
  let call := getFiatRatesWithWeights maxRetries retryDelay h in
  (world call.2 = world h →
   withinTTL h ∧ cachedRates (this h) ≠ []
   ∧ call.1 = Normal (cachedRates (this h)))
  ∧ (withinTTL h → cachedRates (this h) = [] →
     call = refreshRates maxRetries retryDelay (initialized h)
     ∧ requests (world call.2) = apiUrl :: requests (world h)).
Proof.
  intros call. subst call.
  destruct (getFiatRatesWithWeights_cases maxRetries retryDelay h)
    as [(Hin & Hne & ->)|(Hwhy & ->)]; cbn [fst snd].
  - split; [done|]. by intros _ Hempty.
  - split.
    + intros Hworld. apply (f_equal requests) in Hworld.
      rewrite refresh_after_initialize_requests in Hworld.
      by apply cons_neq in Hworld.
    + intros _ _. by rewrite refresh_after_initialize_requests.
Qed.

(** ** Retry and fallback *)

(** The closure never fails, so the wrapper runs it once: the refresh
    always returns, after a single request and without any delay, and when
    the fetch fails what it returns is the baseline fallback. *)
Lemma fetch_failure_handled_within_attempt (maxRetries : nat) (retryDelay : Z)
    (h : Heap) :
  refreshRates maxRetries retryDelay h = refreshAttempt h
  ∧ (∃ rates, (refreshRates maxRetries retryDelay h).1 = Normal rates)
  ∧ requests (world (refreshRates maxRetries retryDelay h).2)
    = apiUrl :: requests (world h)
  ∧ clock (world (refreshRates maxRetries retryDelay h).2)
    = clock (world h) + elapsed (api (world h) (length (requests (world h))))
  ∧ (∀ e : Error,
       fetched h = Throw e →
       (refreshRates maxRetries retryDelay h).1
       = Normal (map (λ cfg, (baselineOrDefault (baseline_json (world h)) cfg).1)
                     (fiatConfig (this h)))).
Proof.
  rewrite refreshRates_eq, refreshAttempt_eq. split; [done|]. split; [by eexists|].
  split; [done|]. split; [done|].
  intros e He. cbn [fst]. by rewrite He.
Qed.

(** * Further properties of the service *)

(** ** The fetch step *)

Lemma fetched_world (s : FiatApiService) (h : Heap) :
  fetched (mkHeap s (world h)) = fetched h.
Proof.
  unfold fetched, fetchRates, fetch. run_async. cbn [world].
  destruct (outcome _) as [reason|response]; [reflexivity|].
  destruct (ok response); cbn [negb]; [|reflexivity].
  destruct (json response) as [responseData|e]; [|reflexivity].
  by destruct (_ || _).
Qed.

(** X1. The fetch step of a refresh succeeds exactly when the request
    resolves with [response.ok], the body parses, the body is an object and
    its [rates] property is an object; it then yields the properties of that
    object.  In every other case it throws.  Either way the service object is
    left as it was. *)
Theorem fetchRates_accepts_iff (h : Heap) (rates : gmap string JsValue) :
  (fetched h = Normal rates
   ↔ ∃ response props,
       outcome (api (world h) (length (requests (world h)))) = FetchResolves response
       ∧ ok response = true
       ∧ json response = Normal (JsObject props)
       ∧ props !! "rates" = Some (JsObject rates))
  ∧ this (fetchRates h).2 = this h.
Proof.
  split; [|by rewrite fetchRates_heap].
  unfold fetched, fetchRates, fetch. run_async.
  destruct (outcome _) as [reason|response]; cbn [fst].
  { split; [done|]. by intros (r & p & [=] & _). }
  destruct (ok response) eqn:Hok; cbn [negb fst].
  2:{ split; [done|]. intros (r & p & [= <-] & Hok' & _). congruence. }
  destruct (json response) as [responseData|e] eqn:Hjson; cbn [fst].
  2:{ split; [done|]. intros (r & p & [= <-] & _ & Hj & _). congruence. }
  destruct responseData as [| b | n | s | props].
  1-4: (split; [|intros (r & p & [= <-] & _ & Hj & _); congruence]).
  1-4: (unfold getProp; cbn [props_of truthy]; rewrite lookup_empty;
        cbn [truthy negb]; rewrite orb_true_r; cbn [orb fst]; done).
  unfold getProp. cbn [props_of truthy negb orb].
  destruct (props !! "rates") as [[| b | n | s | rs]|] eqn:Hrates;
    cbn [truthy typeof negb orb props_of].
  - split; [done|]. intros (r & p & [= <-] & _ & Hj & Hr).
    rewrite Hjson in Hj. injection Hj as <-. congruence.
  - split; [by destruct b|]. intros (r & p & [= <-] & _ & Hj & Hr).
    rewrite Hjson in Hj. injection Hj as <-. congruence.
  - split; [by destruct (truthy_number n)|].
    intros (r & p & [= <-] & _ & Hj & Hr).
    rewrite Hjson in Hj. injection Hj as <-. congruence.
  - split; [by destruct (String.eqb s "")|].
    intros (r & p & [= <-] & _ & Hj & Hr).
    rewrite Hjson in Hj. injection Hj as <-. congruence.
  - split.
    + intros [= <-]. eauto 10.
    + intros (r & p & [= <-] & _ & Hj & Hr).
      rewrite Hjson in Hj. injection Hj as <-. simpl. congruence.
  - split; [done|]. intros (r & p & [= <-] & _ & Hj & Hr).
    rewrite Hjson in Hj. injection Hj as <-. congruence.
Qed.

(** ** The tiers of the reconciliation *)


(** X3. The codes the loop collects in [missingCurrencies] are exactly the
    codes of the configured entries that reached the default tier (not USD,
    no usable fetched rate, no usable baseline rate), and the entry cached
    for each of them carries the default rate of its code. *)
Theorem missingCurrencies_are_default_tier (rates : gmap string JsValue)
    (baseline : option JsValue) (cfgs : list FiatConfig) (c : string) :
  c ∈ (reconcileLoop rates baseline cfgs).2
  ↔ ∃ (i : nat) (cfg : FiatConfig),
      cfgs !! i = Some cfg ∧ code cfg = c ∧ c ≠ "USD"
      ∧ usableRate (rates !! c) = None
      ∧ baselineUsable baseline c = None
      ∧ (reconcileLoop rates baseline cfgs).1 !! i
        = Some (mkFiatData cfg (getDefaultRateForCurrency c)).
Proof.
  rewrite reconcileLoop_snd, reconcileLoop_fst, map_fmap, list_elem_of_fmap.
  split.
  - intros (cfg & -> & Hin). apply list_elem_of_filter in Hin as ((Husd & Hu & Hb) & Hin).
    apply list_elem_of_lookup in Hin as (i & Hi). exists i, cfg.
    apply String.eqb_neq in Husd.
    repeat (split; [done|]).
    rewrite map_fmap, list_lookup_fmap, Hi. cbn [fmap option_fmap option_map].
    unfold reconciledEntry. rewrite Hu, baselineOrDefault_fst, Hb.
    by destruct (String.eqb_spec (code cfg) "USD").
  - intros (i & cfg & Hi & <- & Husd & Hu & Hb & _). exists cfg. split; [done|].
    apply list_elem_of_filter. split; [|by eapply list_elem_of_lookup_2].
    by apply String.eqb_neq in Husd.
Qed.

(** X4. For every code the default table lists, and for every code the
    table neither lists nor inherits a member for, the default rate is a
    strictly positive number; for every code whatsoever it is truthy. *)
Theorem default_rate_is_positive (c : string) :
  (is_Some (defaultRates !! c) ∨ inheritedMember engine defaultRatesObject c = None →
   ∃ r : number,
     getDefaultRateForCurrency c = num r ∧ PrimFloat.ltb 0%float r = true)
  ∧ truthyAny (getDefaultRateForCurrency c) = true.
Proof.
  split; [|apply getDefaultRateForCurrency_truthy].
  intros [[r Hr]|Hinh]; [|by apply getDefaultRateForCurrency_positive].
  exists r. split; [by apply getDefaultRateForCurrency_listed|].
  apply elem_of_list_to_map_2 in Hr. pose proof defaultRatesTable_positive as Hall.
  rewrite Forall_forall in Hall. apply (Hall (c, r)), Hr.
Qed.

(** ** What a refresh keeps and what it discards *)

(** X5. A refresh never reuses what was cached before: its result and
    the state it leaves depend on the configured list and on the world only,
    not on the rates or the [lastFetch] the service held.  In particular a
    failed fetch replaces live rates cached earlier by baseline and default
    rates. *)
Theorem refresh_discards_previous_cache (maxRetries : nat) (retryDelay : Z)
    (s1 s2 : FiatApiService) (w : World) :
  fiatConfig s1 = fiatConfig s2 →
  refreshRates maxRetries retryDelay (mkHeap s1 w)
  = refreshRates maxRetries retryDelay (mkHeap s2 w).
Proof.
  intros Hcfg. rewrite !refreshRates_eq. unfold refreshed, afterFetch.
  cbn [this world]. rewrite Hcfg.
  by rewrite <- (fetched_world s1 (mkHeap s2 w)).
Qed.

(** X6. What a refresh caches is served for the next sixty seconds: after
    a refresh of a service with a non-empty configuration, a call made
    while the clock has advanced by at most [CACHE_DURATION] returns the
    refreshed list and changes nothing, whatever else happened in the world
    meanwhile. *)
Theorem refreshed_cache_is_served (maxRetries : nat) (retryDelay : Z) (h : Heap)
    (w' : World) :
  let h1 := (refreshRates maxRetries retryDelay h).2 in
  fiatConfig (this h) ≠ [] →
  clock w' - clock (world h1) ≤ CACHE_DURATION →
  getFiatRatesWithWeights maxRetries retryDelay (mkHeap (this h1) w')
  = (Normal (cachedRates (this h1)), mkHeap (this h1) w').
Proof.
  intros h1 Hcfg Hage. subst h1. revert Hage.
  rewrite refreshRates_eq. cbn [snd refreshed this world]. intros Hage.
  rewrite getFiatRatesWithWeights_eq. cbn [this world lastFetch cachedRates].
  pose proof (reconciled_config (baseline_json (world h)) (fetched h)
                (fiatConfig (this h))) as Hmap.
  destruct (reconciled _ _ _) as [|fiat rates] eqn:Hrec.
  { cbn in Hmap. congruence. }
  rewrite bool_decide_eq_false_2 by lia.
  unfold initialized. cbn [this fiatConfig].
  destruct (fiatConfig (this h)) as [|cfg cfgs]; [done|]. reflexivity.
Qed.

(** ** Configuration, cache and average together *)

(** X7. With no configuration loaded, none to load (fiats.json unreadable
    or an empty list) and nothing cached, [getFiatRatesWithWeights()]
    resolves to the empty list, after a request all the same, and
    [getWeightedFiatAverage()] then throws 'No fiat rate data available'. *)
Theorem unconfigured_service_has_no_average (maxRetries : nat) (retryDelay : Z)
    (h : Heap) :
  let call := getFiatRatesWithWeights maxRetries retryDelay h in
  fiatConfig (this h) = [] →
  default [] (fiats_json (world h)) = [] →
  cachedRates (this h) = [] →
  call.1 = Normal []
  ∧ requests (world call.2) = apiUrl :: requests (world h)
  ∧ getWeightedFiatAverage (this call.2)
    = Throw (mkError "No fiat rate data available").
Proof.
  intros call Hcfg Hfile Hcache. subst call.
  rewrite getFiatRatesWithWeights_eq, Hcache.
  assert (Hrefresh : (match lastFetch (this h) with
                      | Some _ | _ => refreshRates maxRetries retryDelay (initialized h)
                      end) = refreshRates maxRetries retryDelay (initialized h))
    by (by destruct (lastFetch (this h))).
  rewrite Hrefresh, refreshRates_eq. cbn [fst snd refreshed this world].
  assert (Hinit : fiatConfig (this (initialized h)) = []).
  { unfold initialized. rewrite Hcfg. by cbn. }
  rewrite Hinit.
  assert (Hrec : ∀ b f, reconciled b f [] = []) by (by intros b [rates|e]).
  rewrite Hrec. unfold afterFetch. cbn [requests world].
  rewrite initialized_world. by repeat split.
Qed.


Lemma sameUpToUsdRate_terms (l1 l2 : list FiatData) :
  Forall2 sameUpToUsdRate l1 l2 →
  map (λ fiat, usdValue fiat * weight (config fiat))%float l1
  = map (λ fiat, usdValue fiat * weight (config fiat))%float l2
  ∧ map (λ fiat, weight (config fiat)) l1 = map (λ fiat, weight (config fiat)) l2.
Proof.
  induction 1 as [|a b l1 l2 (Hcfg & Hrate) _ (IH1 & IH2)]; [done|].
  cbn [map]. rewrite IH1, IH2, Hcfg. split; [|done]. f_equal. f_equal.
  unfold usdValue. rewrite <- Hcfg.
  destruct (String.eqb_spec (code (config a)) "USD") as [|Hne]; [done|].
  by rewrite (Hrate Hne).
Qed.

(** X9. The average reads the USD entry through its weight only: two
    cached lists that agree on every configuration and on the rate of every
    entry other than USD have the same weighted average (or fail alike),
    whatever rates their USD entries carry. *)
Theorem average_ignores_usd_rate (s1 s2 : FiatApiService) :
  Forall2 sameUpToUsdRate (cachedRates s1) (cachedRates s2) →
  getWeightedFiatAverage s1 = getWeightedFiatAverage s2.
Proof.
  intros Hsame. rewrite !getWeightedFiatAverage_eq.
  unfold weightedAverage_spec, totalWeight.
  destruct (sameUpToUsdRate_terms _ _ Hsame) as (Hterms & Hweights).
  rewrite Hterms, Hweights.
  by destruct Hsame.
Qed.

(** X10. While nothing is cached, [getMissingCurrencies()] reports every
    configured code, in configuration order. *)
Theorem all_codes_missing_while_cache_empty (self : FiatApiService) :
  cachedRates self = [] →
  getMissingCurrencies self = map code (fiatConfig self).
Proof.
  intros Hempty. unfold getMissingCurrencies. rewrite Hempty. cbn [map].
  induction (map code (fiatConfig self)) as [|c l IH]; [done|].
  rewrite filter_cons_True by done. by rewrite IH.
Qed.

Lemma all_codes_missing_while_cache_empty_witness :
  cachedRates serviceWithoutRates = []
  ∧ getMissingCurrencies serviceWithoutRates = ["USD"; "EUR"].
Proof.
  split; [reflexivity|].
  rewrite (all_codes_missing_while_cache_empty serviceWithoutRates eq_refl).
  reflexivity.
Defined.

(** * The HTTP layer *)

(** ** The CORS middleware *)

Lemma allowedOrigins_first (FRONTEND_URL : option string) :
  ∃ rest, allowedOrigins FRONTEND_URL = "http://localhost:5173" :: rest.
Proof. unfold allowedOrigins. cbn. by eexists. Qed.

Lemma allowedOrigins_truthy (FRONTEND_URL : option string) (o : string) :
  o ∈ allowedOrigins FRONTEND_URL → Boolean (Some o) = true.
Proof.
  unfold allowedOrigins. rewrite list_elem_of_omap.
  intros (v & _ & Hv). destruct (Boolean v) eqn:Hb; [|done]. by subst.
Qed.

(** X11. Whatever the request, the CORS middleware sets
    Access-Control-Allow-Origin to a member of the allowed list: to the
    request's origin when that origin is in the list, to the first entry,
    http://localhost:5173, otherwise.  An origin outside the list is never
    echoed.  Credentials are always allowed; an OPTIONS request ends with
    status 200 and every other request goes on to the next handler. *)
Theorem cors_origin_is_allowed (FRONTEND_URL : option string) (method : string)
    (origin : option string) (headers : gmap string string) :
  let res := corsMiddleware FRONTEND_URL method origin headers in
  (∃ v : string,
     res.1 !! "Access-Control-Allow-Origin" = Some v
     ∧ v ∈ allowedOrigins FRONTEND_URL
     ∧ (∀ o, origin = Some o → o ∈ allowedOrigins FRONTEND_URL → v = o)
     ∧ ((∀ o, origin = Some o → o ∉ allowedOrigins FRONTEND_URL) →
        v = "http://localhost:5173"))
  ∧ res.1 !! "Access-Control-Allow-Credentials" = Some "true"
  ∧ (method = "OPTIONS" → res.2 = SendStatus 200)
  ∧ (method ≠ "OPTIONS" → res.2 = Next).
Proof.
  intros res. subst res. unfold corsMiddleware.
  destruct (allowedOrigins_first FRONTEND_URL) as (rest & Hallowed).
  assert (Hfirst : "http://localhost:5173" ∈ allowedOrigins FRONTEND_URL)
    by (rewrite Hallowed; by left).
  split; [|split; [|split]].
  - assert (Hset : ∀ (hs : gmap string string) (v : string),
      ((if String.eqb method "OPTIONS"
        then (<["Access-Control-Allow-Credentials" := "true"]>
                (<["Access-Control-Allow-Headers" :=
                     "Origin, X-Requested-With, Content-Type, Accept, Authorization"]>
                   (<["Access-Control-Allow-Methods" :=
                        "GET, POST, PUT, DELETE, OPTIONS"]>
                      (<["Access-Control-Allow-Origin" := v]> hs))),
              SendStatus 200)
        else (<["Access-Control-Allow-Credentials" := "true"]>
                (<["Access-Control-Allow-Headers" :=
                     "Origin, X-Requested-With, Content-Type, Accept, Authorization"]>
                   (<["Access-Control-Allow-Methods" :=
                        "GET, POST, PUT, DELETE, OPTIONS"]>
                      (<["Access-Control-Allow-Origin" := v]> hs))),
              Next)).1
       !! "Access-Control-Allow-Origin") = Some v).
    { intros hs v. destruct (String.eqb method "OPTIONS"); cbn [fst];
        do 3 (rewrite lookup_insert_ne by done); by rewrite lookup_insert_eq. }
    destruct origin as [o|].
    + destruct (Boolean (Some o) && includes (allowedOrigins FRONTEND_URL) o) eqn:Hin.
      * apply andb_true_iff in Hin as (_ & Hin%includes_elem_of).
        exists o. split; [by apply Hset|]. split; [done|]. split.
        -- by intros o' [= <-] _.
        -- intros Hnot. by destruct (Hnot o eq_refl).
      * rewrite Hallowed. cbn [length Nat.ltb Nat.leb head]. rewrite <- Hallowed.
        exists "http://localhost:5173". split; [by apply Hset|]. split; [done|]. split.
        -- intros o' [= <-] Ho. apply andb_false_iff in Hin as [Hb|Hi].
           ++ by rewrite (allowedOrigins_truthy _ _ Ho) in Hb.
           ++ apply includes_elem_of in Ho. congruence.
        -- done.
    + rewrite Hallowed. cbn [length Nat.ltb Nat.leb head]. rewrite <- Hallowed.
      exists "http://localhost:5173". split; [by apply Hset|]. by repeat split.
  - by destruct (String.eqb method "OPTIONS"); cbn [fst]; rewrite lookup_insert_eq.
  - intros ->. by cbn.
  - intros Hm. apply String.eqb_neq in Hm. by rewrite Hm.
Qed.

Lemma cors_origin_is_allowed_witness :
  (corsMiddleware (Some "https://app.example") "GET" (Some "https://evil.example") ∅).1
    !! "Access-Control-Allow-Origin" = Some "http://localhost:5173"
  ∧ (corsMiddleware (Some "https://app.example") "OPTIONS"
                    (Some "https://app.example") ∅).2 = SendStatus 200.
Proof.
  destruct (cors_origin_is_allowed (Some "https://app.example") "GET"
              (Some "https://evil.example") ∅)
    as ((v & Hv & _ & _ & Hfirst) & _).
  destruct (cors_origin_is_allowed (Some "https://app.example") "OPTIONS"
              (Some "https://app.example") ∅)
    as (_ & _ & Hoptions & _).
  split; [|exact (Hoptions eq_refl)].
  rewrite Hv. f_equal. apply Hfirst.
  intros o [= <-] Hin. apply includes_elem_of in Hin. by vm_compute in Hin.
Defined.

(** ** The request log *)

Lemma untruncatedLogLine_eq (Number_toString : Z → jsstring)
    (JSON_stringify : JsValue → jsstring) (method path : jsstring)
    (statusCode duration : Z) (captured : option JsValue) :
  match captured with
  | Some bodyJson =>
      if truthy captured
      then (method ++ js " " ++ path ++ js " " ++ Number_toString statusCode
              ++ js " in " ++ Number_toString duration ++ js "ms")
             ++ js " :: " ++ JSON_stringify bodyJson
      else method ++ js " " ++ path ++ js " " ++ Number_toString statusCode
             ++ js " in " ++ Number_toString duration ++ js "ms"
  | None => method ++ js " " ++ path ++ js " " ++ Number_toString statusCode
              ++ js " in " ++ Number_toString duration ++ js "ms"
  end
  = untruncatedLogLine Number_toString JSON_stringify method path statusCode
                       duration captured.
Proof.
  unfold untruncatedLogLine.
  destruct captured as [bodyJson|]; [destruct (truthy _)|];
    rewrite <- ?(assoc_L (++)), ?app_nil_r; reflexivity.
Qed.

(** X12. The request log writes a line for a path that starts with /api
    and for no other.  The line is the untruncated one (method, path,
    status, duration and, when a truthy body was captured, the body) when
    that has at most 80 code units, and otherwise its first 79 units followed
    by the ellipsis, 80 units in all: a line never has more than 80. *)
Theorem log_line_at_most_80 (Number_toString : Z → jsstring)
    (JSON_stringify : JsValue → jsstring) (method path : jsstring)
    (statusCode duration : Z) (captured : option JsValue) :
  let full := untruncatedLogLine Number_toString JSON_stringify method path
                                 statusCode duration captured in
  let logged := finishLogLine Number_toString JSON_stringify method path
                              statusCode duration captured in
  (startsWith path (js "/api") = false → logged = None)
  ∧ (startsWith path (js "/api") = true →
     ∃ line,
       logged = Some line
       ∧ (length line ≤ 80)%nat
       ∧ ((length full ≤ 80)%nat → line = full)
       ∧ ((80 < length full)%nat →
          line = take 79 full ++ ellipsis ∧ length line = 80%nat)).
Proof.
  intros full logged. subst logged. unfold finishLogLine. cbv zeta.
  rewrite untruncatedLogLine_eq. fold full.
  split; [by intros ->|]. intros ->.
  destruct (Nat.ltb_spec 80 (length full)) as [Hlong|Hshort].
  - assert (Hlen : length (take 79 full ++ ellipsis) = 80%nat).
    { rewrite length_app, length_take_le by lia. reflexivity. }
    eexists. split; [reflexivity|]. split; [lia|]. split; [lia|]. done.
  - eexists. split; [reflexivity|]. split; [done|]. split; [done|]. lia.
Qed.

Lemma log_line_at_most_80_witness :
  startsWith (js "/api/avgx") (js "/api") = true
  ∧ finishLogLine (λ z, js (pretty z)) (λ _, longBody) (js "GET") (js "/api/avgx")
                  200 12 (Some (JsObject ∅))
    = Some (take 79 (js "GET /api/avgx 200 in 12ms :: " ++ longBody) ++ ellipsis)
  ∧ finishLogLine (λ z, js (pretty z)) (λ _, longBody) (js "GET") (js "/api/avgx")
                  200 12 None
    = Some (js "GET /api/avgx 200 in 12ms").
Proof.
  split; [reflexivity|]. split.
  - destruct (proj2 (log_line_at_most_80 (λ z, js (pretty z)) (λ _, longBody)
                       (js "GET") (js "/api/avgx") 200 12 (Some (JsObject ∅)))
                    eq_refl) as (line & -> & _ & _ & Hlong).
    destruct Hlong as [-> _]; [vm_compute; lia|]. reflexivity.
  - destruct (proj2 (log_line_at_most_80 (λ z, js (pretty z)) (λ _, longBody)
                       (js "GET") (js "/api/avgx") 200 12 None)
                    eq_refl) as (line & -> & _ & Hshort & _).
    rewrite Hshort; [reflexivity|vm_compute; lia].
Defined.

(** ** The history routes *)

(** X13. GET /api/history calls the history service only with one of
    24h, 7d and 30d, and at most once.  A string timeframe outside these,
    and a timeframe that is no string, are answered with 400 and the fixed
    message without any call; 400 is answered in no other case.  A missing
    or empty timeframe counts as 24h.  For a valid timeframe the service is
    called with it: what it returns is answered with status 200, its length
    as count, and its failure with status 500. *)
Theorem history_validates_timeframe {Timestamp : Type}
    (getHistoricalData : string → Completion (list (HistoryPoint Timestamp)))
    (query_timeframe : option QueryValue) :
  let res := historyRoute getHistoricalData query_timeframe in
  Forall (λ tf, tf ∈ validTimeframes) res.2
  ∧ (length res.2 ≤ 1)%nat
  ∧ (statusCode res.1 = 400 ↔ res.2 = [])
  ∧ (statusCode res.1 = 400 →
     body res.1 = HistoryFailure "Invalid timeframe. Use: 24h, 7d, 30d")
  ∧ (query_timeframe = None ∨ query_timeframe = Some (QString "") →
     res.2 = ["24h"])
  ∧ (∀ tf data n,
       body res.1 = HistoryData tf data n →
       statusCode res.1 = 200 ∧ res.2 = [tf]
       ∧ getHistoricalData tf = Normal data ∧ n = length data)
  ∧ (∀ s, query_timeframe = Some (QString s) → s ≠ "" → s ∉ validTimeframes →
          statusCode res.1 = 400)
  ∧ (query_timeframe = Some QStructured → statusCode res.1 = 400)
  ∧ (∀ tf,
       query_timeframe = Some (QString tf) ∧ tf ∈ validTimeframes
       ∨ (query_timeframe = None ∨ query_timeframe = Some (QString "")) ∧ tf = "24h" →
       res.2 = [tf]
       ∧ (∀ history, getHistoricalData tf = Normal history →
                     res.1 = mkHttpResponse 200 (HistoryData tf history (length history)))
       ∧ (∀ e, getHistoricalData tf = Throw e →
               res.1 = mkHttpResponse 500
                         (HistoryFailure "Failed to fetch historical data"))).
Proof.
  intros res. subst res. unfold historyRoute.
  assert (Hdefault : includes validTimeframes "24h" = true) by reflexivity.
  assert (Hempty : includes validTimeframes "" = false) by reflexivity.
  destruct query_timeframe as [[s|]|];
    [destruct (String.eqb_spec s "") as [->|Hs];
       [rewrite Hdefault; destruct (getHistoricalData "24h") as [history|e] eqn:Hsvc
       |destruct (includes validTimeframes s) eqn:Hvalid;
          [destruct (getHistoricalData s) as [history|e] eqn:Hsvc|]]
    |
    |rewrite Hdefault; destruct (getHistoricalData "24h") as [history|e] eqn:Hsvc];
    cbn [fst snd statusCode body length];
    repeat split; intros;
    repeat match goal with
           | H : _ ∨ _ |- _ => destruct H
           | H : _ ∧ _ |- _ => destruct H
           end;
    simplify_eq;
    repeat match goal with
           | H : _ ∈ validTimeframes |- _ => apply includes_elem_of in H
           | H : _ ∉ validTimeframes |- _ => rewrite <- includes_elem_of in H
           end;
    try done; try lia; try congruence;
    try (by apply Forall_nil);
    apply Forall_singleton; by apply includes_elem_of.
Qed.

Lemma history_validates_timeframe_witness :
  (historyRoute historyOfThree None).2 = ["24h"]
  ∧ statusCode (historyRoute historyOfThree (Some (QString "1y"))).1 = 400
  ∧ (historyRoute historyOfThree (Some (QString "1y"))).2 = []
  ∧ statusCode (historyRoute historyOfThree (Some QStructured)).1 = 400
  ∧ (historyRoute historyOfThree (Some (QString "7d"))).2 = ["7d"].
Proof.
  destruct (history_validates_timeframe historyOfThree None)
    as (_ & _ & _ & _ & Hdefault & _).
  destruct (history_validates_timeframe historyOfThree (Some (QString "1y")))
    as (_ & _ & Hinvalid & _ & _ & _ & Hstring & _).
  destruct (history_validates_timeframe historyOfThree (Some QStructured))
    as (_ & _ & _ & _ & _ & _ & _ & Hstructured & _).
  destruct (history_validates_timeframe historyOfThree (Some (QString "7d")))
    as (_ & _ & _ & _ & _ & _ & _ & _ & Hvalid).
  assert (Hstatus : statusCode (historyRoute historyOfThree (Some (QString "1y"))).1
                    = 400).
  { apply (Hstring "1y"); [reflexivity|discriminate|].
    rewrite <- includes_elem_of. discriminate. }
  split; [exact (Hdefault (or_introl eq_refl))|]. split; [exact Hstatus|].
  split; [exact (proj1 Hinvalid Hstatus)|].
  split; [exact (Hstructured eq_refl)|].
  apply (Hvalid "7d"). left. split; [reflexivity|].
  apply includes_elem_of. reflexivity.
Defined.

(** X14. GET /api/avgx/chart/:timeframe always answers with status 200.
    It calls the history service once: with 30d for 1m and for 1y, with the
    timeframe as given otherwise, unchecked.  When the service fails the
    body is the empty array; otherwise it has one point per entry of the
    history, with the entry's value. *)
Theorem chart_always_answers_200 {Timestamp JsDate : Type}
    (getHistoricalData : string → Completion (list (HistoryPoint Timestamp)))
    (newDate : Timestamp → JsDate) (timeframe : string) :
  let res := chartRoute getHistoricalData newDate timeframe in
  statusCode res.1 = 200
  ∧ ∃ mapped : string,
      res.2 = [mapped]
      ∧ mapped ≠ "1m" ∧ mapped ≠ "1y"
      ∧ (timeframe = "1m" ∨ timeframe = "1y" → mapped = "30d")
      ∧ (timeframe ≠ "1m" → timeframe ≠ "1y" → mapped = timeframe)
      ∧ (∀ e, getHistoricalData mapped = Throw e → body res.1 = [])
      ∧ (∀ history,
           getHistoricalData mapped = Normal history →
           length (body res.1) = length history
           ∧ map value (body res.1) = map avgx_usd history).
Proof.
  intros res. subst res. unfold chartRoute.
  set (mapped := if String.eqb timeframe "1m" then "30d"
                 else if String.eqb timeframe "1y" then "30d" else timeframe).
  assert (Hmapped : mapped ≠ "1m" ∧ mapped ≠ "1y"
                    ∧ (timeframe = "1m" ∨ timeframe = "1y" → mapped = "30d")
                    ∧ (timeframe ≠ "1m" → timeframe ≠ "1y" → mapped = timeframe)).
  { subst mapped.
    destruct (String.eqb_spec timeframe "1m") as [->|H1];
      [|destruct (String.eqb_spec timeframe "1y") as [->|H2]];
      simpl; repeat split; intros;
      repeat match goal with H : _ ∨ _ |- _ => destruct H end;
      congruence. }
  destruct Hmapped as (H1 & H2 & H3 & H4).
  destruct (getHistoricalData mapped) as [history|e] eqn:Hsvc; cbn [fst snd statusCode body].
  - split; [done|]. exists mapped. split; [done|]. do 4 (split; [done|]). split.
    + intros e He. congruence.
    + intros h Hh. assert (h = history) by congruence. subst h.
      by rewrite length_map, map_map.
  - split; [done|]. exists mapped. split; [done|]. do 4 (split; [done|]).
    split; [done|]. intros h Hh. congruence.
Qed.

Lemma chart_always_answers_200_witness :
  (chartRoute historyOfThree (λ t : Z, t) "1y").2 = ["30d"]
  ∧ body (chartRoute historyOfThree (λ t : Z, t) "5y").1 = []
  ∧ statusCode (chartRoute historyOfThree (λ t : Z, t) "5y").1 = 200.
Proof.
  destruct (chart_always_answers_200 historyOfThree (λ t : Z, t) "1y")
    as (_ & m1 & Hcalls1 & _ & _ & Hmap1 & _).
  destruct (chart_always_answers_200 historyOfThree (λ t : Z, t) "5y")
    as (Hstatus & m2 & Hcalls2 & _ & _ & _ & Hsame & Hfail & _).
  split; [by rewrite Hcalls1, (Hmap1 (or_intror eq_refl))|].
  split; [|exact Hstatus].
  apply (Hfail (mkError "unknown timeframe")).
  rewrite (Hsame ltac:(discriminate) ltac:(discriminate)). reflexivity.
Defined.

(** ** The fiat rates route *)

(** X15. GET /api/avgx/fiat-rates answers every request with status 200
    and the rate list the service holds after the call; the 500 branch of
    the handler is never taken, since [getFiatRatesWithWeights()] turns
    every fetch failure into baseline and default rates. *)
Theorem fiat_rates_route_answers_200 (maxRetries : nat) (retryDelay : Z) (h : Heap) :
  let res := fiatRatesRoute maxRetries retryDelay h in
  res.1 = Normal (mkHttpResponse 200 (FiatRates (cachedRates (this res.2))))
  ∧ res.2 = (getFiatRatesWithWeights maxRetries retryDelay h).2
  ∧ (map config (cachedRates (this res.2)) = fiatConfig (this res.2)
     ∨ withinTTL h ∧ cachedRates (this res.2) = cachedRates (this h)).
Proof.
  intros res. subst res. unfold fiatRatesRoute. run_async.
  destruct (getFiatRatesWithWeights_cases maxRetries retryDelay h)
    as [(Hin & Hne & ->)|(Hwhy & ->)].
  - cbn [fst snd]. split; [by rewrite initialized_cachedRates|]. split; [done|].
    right. by rewrite initialized_cachedRates.
  - rewrite refreshRates_eq. cbn [fst snd refreshed this cachedRates fiatConfig].
    split; [done|]. split; [done|]. left. apply reconciled_config.
Qed.

End Engine.

(** * The scenarios, evaluated

    The scenarios run on [plainObjectEngine]. *)

(** ** Fallback order *)

Lemma fallback_order_by_tier_witness :
  cachedRates (this (refreshRates plainObjectEngine 3 1000 h_tiers).2) !! 2%nat
  = Some (mkFiatData gbp 0.79%float)
  ∧ cachedRates (this (refreshRates plainObjectEngine 3 1000 h_tiers).2) !! 3%nat
    = Some (mkFiatData jpy 110%float)
  ∧ cachedRates (this (refreshRates plainObjectEngine 3 1000 h_tiers).2) !! 4%nat
    = Some (mkFiatData xyz 1.0%float).
Proof.
  assert (Hfetched : ∀ (c : string) rates (r : number),
            c ≠ "EUR" →
            fetched h_tiers = Normal rates →
            rates !! c = Some (JsNumber r) → truthy_number r = false).
  { intros c rates r Hc Hf Hr.
    assert (Hrates : fetched h_tiers = Normal {[ "EUR" := JsNumber 0.9%float ]})
      by (by vm_compute).
    rewrite Hrates in Hf. injection Hf as <-.
    by rewrite lookup_singleton_ne in Hr. }
  assert (Hbaseline : ∀ c : string,
            ({[ "GBP" := JsNumber 0.79%float ]} : gmap string JsValue) !! c = None →
            inheritedMember plainObjectEngine
              (JsObject {[ "GBP" := JsNumber 0.79%float ]}) c = None →
            baseline_json (world h_tiers) = None
            ∨ (∃ b : gmap string JsValue,
                 baseline_json (world h_tiers) = Some (JsObject b)
                 ∧ (b !! "fiat_rates" = None
                    ∨ ∃ fr : gmap string JsValue,
                        b !! "fiat_rates" = Some (JsObject fr)
                        ∧ (fr !! c = None
                           ∧ inheritedMember plainObjectEngine (JsObject fr) c = None
                           ∨ ∃ v, fr !! c = Some v ∧ truthy (Some v) = false)))).
  { intros c Hc Hinh. right.
    exists {[ "fiat_rates" := JsObject {[ "GBP" := JsNumber 0.79%float ]} ]}.
    split; [by vm_compute|]. right.
    exists {[ "GBP" := JsNumber 0.79%float ]}.
    split; [by vm_compute|]. left. by split. }
  split; [|split].
  - apply (proj1 (fallback_order_by_tier plainObjectEngine 3 1000 h_tiers 2 gbp
                    eq_refl ltac:(discriminate)
                    (λ rates r, Hfetched "GBP" rates r ltac:(discriminate)))
                 {[ "fiat_rates" := JsObject (JsNumber <$> {[ "GBP" := 0.79%float ]}) ]}
                 (JsNumber <$> {[ "GBP" := 0.79%float ]})
                 (JsNumber 0.79%float));
      by vm_compute.
  - apply (proj1 (proj2 (fallback_order_by_tier plainObjectEngine 3 1000 h_tiers 3 jpy
                           eq_refl ltac:(discriminate)
                           (λ rates r, Hfetched "JPY" rates r ltac:(discriminate)))
                        (Hbaseline "JPY" eq_refl eq_refl))).
    by vm_compute.
  - apply (proj2 (proj2 (fallback_order_by_tier plainObjectEngine 3 1000 h_tiers 4 xyz
                           eq_refl ltac:(discriminate)
                           (λ rates r, Hfetched "XYZ" rates r ltac:(discriminate)))
                        (Hbaseline "XYZ" eq_refl eq_refl)));
      by vm_compute.
Defined.

(** C2, at an input where it fails.  The configured code [toString] has no
    entry in the fetched mapping, baseline.json cannot be read, and the
    default table does not list the code: the claim gives it the rate 1.0, and
    so does the comment on the last line of [getDefaultRateForCurrency].
    [defaultRates[code] || 1.0] finds the function that every object inherits
    under that name, which is truthy: the function is cached as the rate, and
    the weighted average computed from the cache is NaN. *)
Theorem inherited_member_cached_as_rate :
  fiatConfig (this h_inherited) !! 1%nat = Some inheritedCode
  ∧ fetched h_inherited = Normal {[ "EUR" := JsNumber 0.9%float ]}
  ∧ baseline_json (world h_inherited) = None
  ∧ defaultRates !! code inheritedCode = None
  ∧ (refreshRates plainObjectEngine 3 1000 h_inherited).1
    = Normal [mkFiatData usd 1.0%float;
              mkFiatData inheritedCode (JsNative "toString")]
  ∧ cachedRates (this (refreshRates plainObjectEngine 3 1000 h_inherited).2) !! 1%nat
    = Some (mkFiatData inheritedCode (JsNative "toString"))
  ∧ getWeightedFiatAverage plainObjectEngine
      (this (refreshRates plainObjectEngine 3 1000 h_inherited).2)
    = Normal nan.
Proof. by vm_compute. Qed.

(** ** The reference asset *)

(** C3, at the input where it fails.  With the API down and a baseline that
    lists USD at 2, the fallback branch caches USD with rate 2: unlike the
    loop of the success branch, the fallback [map] has no case for USD. *)
Theorem usd_rate_from_baseline_when_fetch_fails :
  fetched h_usd_baseline = Throw (mkError "fetch failed")
  ∧ (refreshRates plainObjectEngine 3 1000 h_usd_baseline).1
    = Normal [mkFiatData usd 2%float; mkFiatData eur 0.92%float]
  ∧ cachedRates (this (refreshRates plainObjectEngine 3 1000 h_usd_baseline).2)
      !! 0%nat
    = Some (mkFiatData usd 2%float).
Proof. by vm_compute. Qed.

(** ** Which fetched values are used *)




(** ** Missing currencies *)

(** C5, at the input where it fails: the scenario of the claim.  The loop
    sends XYZ to the default tier and collects it in its local list of
    missing currencies, yet the refresh caches an entry for every configured
    code, and [getMissingCurrencies()], which compares the configured codes
    with the cached ones, returns the empty list instead of [["XYZ"]]. *)
Theorem default_tier_codes_not_reported :
  (reconcileLoop plainObjectEngine {[ "EUR" := JsNumber 0.9%float ]}
                 (baseline_json (world h_partial)) (fiatConfig (this h_partial))).2
  = ["XYZ"]
  ∧ (refreshRates plainObjectEngine 3 1000 h_partial).1
    = Normal [mkFiatData usd 1.0%float; mkFiatData eur 0.9%float;
              mkFiatData xyz 1.0%float]
  ∧ getMissingCurrencies (this (refreshRates plainObjectEngine 3 1000 h_partial).2)
    = []
  ∧ getMissingCurrencies (this (refreshRates plainObjectEngine 3 1000 h_partial).2)
    ≠ ["XYZ"].
Proof. by vm_compute. Qed.

(** ** The weighted average *)



Lemma average_ignores_usd_rate_witness :
  Forall2 sameUpToUsdRate (cachedRates serviceUsdAtTwo) (cachedRates serviceUsdAtOne)
  ∧ getWeightedFiatAverage plainObjectEngine serviceUsdAtTwo
    = getWeightedFiatAverage plainObjectEngine serviceUsdAtOne.
Proof.
  assert (Hsame : Forall2 sameUpToUsdRate (cachedRates serviceUsdAtTwo)
                          (cachedRates serviceUsdAtOne)).
  { repeat constructor. by intros []. }
  split; [exact Hsame|].
  exact (average_ignores_usd_rate plainObjectEngine _ _ Hsame).
Defined.

(** ** The cache *)

(** C8, as stated, fails.  With nothing configured the first call caches
    an empty list at time 1005; a second call at that very moment (age 0)
    refreshes again: a second request is made and [lastFetch] moves on. *)
Lemma fresh_empty_cache_is_refreshed :
  let h1 := (getFiatRatesWithWeights plainObjectEngine 3 1000 h_unconfigured).2 in
  let h2 := (getFiatRatesWithWeights plainObjectEngine 3 1000 h1).2 in
  lastFetch (this h1) = Some 1005 ∧ clock (world h1) = 1005
  ∧ cachedRates (this h1) = []
  ∧ requests (world h1) = [apiUrl]
  ∧ requests (world h2) = [apiUrl; apiUrl]
  ∧ lastFetch (this h2) = Some 1010.
Proof. by vm_compute. Qed.

Lemma cache_ttl_witness :
  withinTTL (h_cached plainObjectEngine)
  ∧ cachedRates (this (h_cached plainObjectEngine)) ≠ []
  ∧ (getFiatRatesWithWeights plainObjectEngine 3 1000 (h_cached plainObjectEngine)).1
    = Normal (cachedRates (this (h_cached plainObjectEngine)))
  ∧ world (getFiatRatesWithWeights plainObjectEngine 3 1000
             (h_cached plainObjectEngine)).2
    = world (h_cached plainObjectEngine)
  ∧ expired h_partial
  ∧ lastFetch (this (getFiatRatesWithWeights plainObjectEngine 3 1000 h_partial).2)
    = Some 1005.
Proof.
  assert (Hin : withinTTL (h_cached plainObjectEngine))
    by (exists 1005; by vm_compute).
  assert (Hne : cachedRates (this (h_cached plainObjectEngine)) ≠ [])
    by (vm_compute; discriminate).
  assert (Hexp : expired h_partial) by (by left).
  destruct (cache_ttl plainObjectEngine 3 1000 (h_cached plainObjectEngine))
    as (Hhit & _ & _).
  destruct (cache_ttl plainObjectEngine 3 1000 h_partial) as (_ & Hmiss & _).
  destruct (Hhit Hin Hne) as (Hres & Hworld & _ & _).
  destruct (Hmiss Hexp) as (_ & _ & Hlast).
  split; [exact Hin|]. split; [exact Hne|]. split; [exact Hres|].
  split; [exact Hworld|]. split; [exact Hexp|].
  rewrite Hlast. by vm_compute.
Defined.

Lemma cache_hit_requires_nonempty_cache_witness :
  withinTTL (h_cached_empty plainObjectEngine)
  ∧ cachedRates (this (h_cached_empty plainObjectEngine)) = []
  ∧ requests (world (h_cached_empty plainObjectEngine)) = [apiUrl]
  ∧ requests (world (getFiatRatesWithWeights plainObjectEngine 3 1000
                       (h_cached_empty plainObjectEngine)).2)
    = [apiUrl; apiUrl]
  ∧ world (getFiatRatesWithWeights plainObjectEngine 3 1000
             (h_cached plainObjectEngine)).2
    = world (h_cached plainObjectEngine)
  ∧ withinTTL (h_cached plainObjectEngine)
  ∧ cachedRates (this (h_cached plainObjectEngine)) ≠ [].
Proof.
  assert (Hin : withinTTL (h_cached_empty plainObjectEngine))
    by (exists 1005; by vm_compute).
  assert (Hempty : cachedRates (this (h_cached_empty plainObjectEngine)) = [])
    by (by vm_compute).
  assert (Hworld : world (getFiatRatesWithWeights plainObjectEngine 3 1000
                            (h_cached plainObjectEngine)).2
                   = world (h_cached plainObjectEngine))
    by (by vm_compute).
  destruct (cache_hit_requires_nonempty_cache plainObjectEngine 3 1000
              (h_cached_empty plainObjectEngine)) as (_ & Hmiss).
  destruct (cache_hit_requires_nonempty_cache plainObjectEngine 3 1000
              (h_cached plainObjectEngine)) as (Hhit & _).
  destruct (Hmiss Hin Hempty) as (_ & Hreq).
  destruct (Hhit Hworld) as (Hin' & Hne' & _).
  split; [exact Hin|]. split; [exact Hempty|]. split; [by vm_compute|].
  split; [rewrite Hreq; by vm_compute|]. split; [exact Hworld|].
  split; [exact Hin'|exact Hne'].
Defined.

Lemma refresh_discards_previous_cache_witness :
  fiatConfig serviceWithLiveRates = fiatConfig serviceWithoutRates
  ∧ (refreshRates plainObjectEngine 3 1000
       (mkHeap serviceWithLiveRates worldOneMinuteLater)).1
    = Normal [mkFiatData usd 2%float; mkFiatData eur 0.92%float].
Proof.
  assert (Hcfg : fiatConfig serviceWithLiveRates = fiatConfig serviceWithoutRates)
    by reflexivity.
  split; [exact Hcfg|].
  rewrite (refresh_discards_previous_cache plainObjectEngine 3 1000 _ _
             worldOneMinuteLater Hcfg).
  by vm_compute.
Defined.

Lemma refreshed_cache_is_served_witness :
  fiatConfig (this h_usd_baseline) ≠ []
  ∧ clock worldOneMinuteLater
    - clock (world (refreshRates plainObjectEngine 3 1000 h_usd_baseline).2)
    ≤ CACHE_DURATION
  ∧ (getFiatRatesWithWeights plainObjectEngine 3 1000
       (mkHeap (this (refreshRates plainObjectEngine 3 1000 h_usd_baseline).2)
               worldOneMinuteLater)).1
    = Normal [mkFiatData usd 2%float; mkFiatData eur 0.92%float].
Proof.
  assert (Hcfg : fiatConfig (this h_usd_baseline) ≠ []) by discriminate.
  assert (Hage : clock worldOneMinuteLater
                 - clock (world (refreshRates plainObjectEngine 3 1000 h_usd_baseline).2)
                 ≤ CACHE_DURATION) by (by vm_compute).
  split; [exact Hcfg|]. split; [exact Hage|].
  rewrite (refreshed_cache_is_served plainObjectEngine 3 1000 h_usd_baseline
             worldOneMinuteLater Hcfg Hage).
  by vm_compute.
Defined.

Lemma unconfigured_service_has_no_average_witness :
  fiatConfig (this h_unconfigured) = []
  ∧ default [] (fiats_json (world h_unconfigured)) = []
  ∧ cachedRates (this h_unconfigured) = []
  ∧ getWeightedFiatAverage plainObjectEngine
      (this (getFiatRatesWithWeights plainObjectEngine 3 1000 h_unconfigured).2)
    = Throw (mkError "No fiat rate data available").
Proof.
  split; [reflexivity|]. split; [reflexivity|]. split; [reflexivity|].
  exact (proj2 (proj2 (unconfigured_service_has_no_average plainObjectEngine 3 1000
                         h_unconfigured eq_refl eq_refl eq_refl))).
Defined.


(** ** Retry and fallback *)

(** C9, at the input where it fails.  The first request fails and the
    wrapper allows three attempts, yet the refresh answers from the baseline
    after that one request: the [catch] block sits inside the retried
    closure, so the wrapper never sees the failure.  With the wrapper around
    the fetch+reconcile step only, as the claim has it, a second request is
    made and the fetched rate is cached. *)
Theorem fallback_before_retries_exhausted :
  fetched h_flaky = Throw (mkError "fetch failed")
  ∧ (refreshRates plainObjectEngine 3 1000 h_flaky).1
    = Normal [mkFiatData usd 1.0%float; mkFiatData eur 0.92%float]
  ∧ requests (world (refreshRates plainObjectEngine 3 1000 h_flaky).2) = [apiUrl]
  ∧ (refreshRates_retried_fetch plainObjectEngine 3 1000 h_flaky).1
    = Normal [mkFiatData usd 1.0%float; mkFiatData eur 0.9%float]
  ∧ requests (world (refreshRates_retried_fetch plainObjectEngine 3 1000 h_flaky).2)
    = [apiUrl; apiUrl].
Proof. by vm_compute. Qed.
